(** * path-protector: the decision-and-patch engine of the admission webhook

    A shallow embedding of [webhook.go] and of the [Record] accessor, with
    the properties the specification states about them.

    Go strings and byte slices are byte sequences: a [string] here is a
    sequence of 8-bit characters.  Logging ([glog]) has no effect on the
    values computed and is left out. *)

From Stdlib Require Import NArith Ascii String Uint63 Floats.
From stdpp Require Import base option list strings pretty gmap.

Set Warnings "-register-all".

Local Open Scope string_scope.
Local Open Scope list_scope.

(** ** Package [strings] and [strconv] of the Go library, as far as the
    program calls them. *)

Module strings.

(** [strings.Split(s, sep)].  The program passes the one-byte separators
    [","] and ["/"] only; [sep] is that byte.  The result has one more
    element than [s] has separators, so it is never empty. *)
Fixpoint Split (s : string) (sep : ascii) : list string :=
  match s with
  | EmptyString => [EmptyString]
  | String c r =>
      if Ascii.eqb c sep then EmptyString :: Split r sep
      else match Split r sep with
           | h :: t => String c h :: t
           | [] => [String c EmptyString]
           end
  end.

(** Number of occurrences of the byte [sep] in [s]. *)
Fixpoint Count (s : string) (sep : ascii) : nat :=
  match s with
  | EmptyString => 0
  | String c r => (if Ascii.eqb c sep then 1 else 0) + Count r sep
  end.

(** [strings.Join(elems, sep)] for a one-byte separator. *)
Fixpoint Join (elems : list string) (sep : ascii) : string :=
  match elems with
  | [] => EmptyString
  | [e] => e
  | e :: rest => e +:+ String sep (Join rest sep)
  end.

Fixpoint trimLeftByte (s : string) (c : ascii) : string :=
  match s with
  | String b r => if Ascii.eqb b c then trimLeftByte r c else s
  | EmptyString => s
  end.

Definition trimRightByte (s : string) (c : ascii) : string :=
  String.rev (trimLeftByte (String.rev s) c).

(** [strings.Trim(s, cutset)] for a cutset of one ASCII byte, the only
    form the program uses ([Trim(path, "/")]). *)
Definition Trim (s : string) (cutset : ascii) : string :=
  trimLeftByte (trimRightByte s cutset) cutset.

Definition code (c : ascii) : N := N_of_ascii c.

(** The table [asciiSpace]: tab, line feed, vertical tab, form feed,
    carriage return and space. *)
Definition asciiSpace (c : ascii) : bool :=
  ((9 <=? code c) && (code c <=? 13) || (code c =? 32))%N.

(** [unicode.IsSpace] on the two-byte runes: U+0085 and U+00A0. *)
Definition isSpace2 (b1 b2 : ascii) : bool :=
  ((code b1 =? 194) && ((code b2 =? 133) || (code b2 =? 160)))%N.

(** [unicode.IsSpace] on the three-byte runes: U+1680, U+2000 to U+200A,
    U+2028, U+2029, U+202F, U+205F and U+3000. *)
Definition isSpace3 (b1 b2 b3 : ascii) : bool :=
  ((code b1 =? 225) && (code b2 =? 154) && (code b3 =? 128)
   || (code b1 =? 226) && (code b2 =? 128)
      && ((128 <=? code b3) && (code b3 <=? 138)
          || (code b3 =? 168) || (code b3 =? 169) || (code b3 =? 175))
   || (code b1 =? 226) && (code b2 =? 129) && (code b3 =? 159)
   || (code b1 =? 227) && (code b2 =? 128) && (code b3 =? 128))%N.

(** [strings.TrimLeftFunc(s, unicode.IsSpace)]: drops the white-space
    runes [s] starts with, reading UTF-8. *)
Fixpoint trimLeftSpace (s : string) : string :=
  match s with
  | String b1 r1 =>
      if asciiSpace b1 then trimLeftSpace r1
      else match r1 with
           | String b2 r2 =>
               if isSpace2 b1 b2 then trimLeftSpace r2
               else match r2 with
                    | String b3 r3 =>
                        if isSpace3 b1 b2 b3 then trimLeftSpace r3 else s
                    | EmptyString => s
                    end
           | EmptyString => s
           end
  | EmptyString => s
  end.

(** The same on the reversed string: the runes are read backwards, last
    byte first, as [utf8.DecodeLastRuneInString] finds them. *)
Fixpoint trimLeftSpaceRev (s : string) : string :=
  match s with
  | String b1 r1 =>
      if asciiSpace b1 then trimLeftSpaceRev r1
      else match r1 with
           | String b2 r2 =>
               if isSpace2 b2 b1 then trimLeftSpaceRev r2
               else match r2 with
                    | String b3 r3 =>
                        if isSpace3 b3 b2 b1 then trimLeftSpaceRev r3 else s
                    | EmptyString => s
                    end
           | EmptyString => s
           end
  | EmptyString => s
  end.

Definition trimRightSpace (s : string) : string :=
  String.rev (trimLeftSpaceRev (String.rev s)).

(** [strings.TrimSpace(s)]: [s] without its leading and trailing white
    space, as Unicode defines it. *)
Definition TrimSpace (s : string) : string :=
  trimRightSpace (trimLeftSpace s).

End strings.

(** Go's [error] values, as the program meets them: the three package
    variables made by [errors.New] (told apart by identity in the [switch]
    of [mutate]), the [*strconv.NumError] of [ParseBool], and the errors
    of [encoding/json], of which only the text is read. *)
Inductive error :=
  | errIgnoredNamespace
  | errNoLabel
  | errLabelDisabled
  | NumError (Func Num Err : string)
  | jsonError (text : string).

Module strconv.

(** [strconv.ErrSyntax.Error()] *)
Definition ErrSyntax : string := "invalid syntax".

(** [strconv.ParseBool(str)]: the twelve accepted spellings, and a syntax
    error that records the input for every other string. *)
Definition ParseBool (str : string) : bool * option error :=
  if bool_decide (str ∈ ["1"; "t"; "T"; "true"; "TRUE"; "True"]) then (true, None)
  else if bool_decide (str ∈ ["0"; "f"; "F"; "false"; "FALSE"; "False"]) then (false, None)
  else (false, Some (NumError "ParseBool" str ErrSyntax)).

End strconv.

(** ** Decoded documents *)

(** What [json.Unmarshal] stores in an [interface{}]: [nil] for null,
    [bool], [float64], [string], [[]interface{}] and
    [map[string]interface{}]. *)
Inductive value :=
  | VNil
  | VBool (b : bool)
  | VFloat64 (f : float)
  | VString (s : string)
  | VSlice (l : list value)
  | VMap (m : gmap string value).

(** [type Record map[string]interface{}].  A nil map reads as the empty
    one. *)
Abbreviation Record := (gmap string value).

(** The loop of [Record.Get] over [nameParts[1:]]. *)
Fixpoint Get_loop (val : value) (nameParts : list string) : value * bool :=
  match nameParts with
  | [] => (val, true)
  | namePart :: rest =>
      match val with
      | VMap typedVal =>
          match typedVal !! namePart with
          | Some val' => Get_loop val' rest
          | None => (VNil, false)
          end
      | _ => (VNil, false)
      end
  end.

(** [func (r Record) Get(nameParts []string) (interface{}, bool)] *)
Definition Get (r : Record) (nameParts : list string) : value * bool :=
  match nameParts with
  | [] => (VNil, false)
  | first :: rest =>
      match r !! first with
      | Some val => Get_loop val rest
      | None => (VNil, false)
      end
  end.

(** The specification's reading of a lookup: [walks v segs w] when [w] is
    reached from [v] by descending through string-keyed mappings, one
    segment at a time. *)
Inductive walks : value -> list string -> value -> Prop :=
  | walks_done v : walks v [] v
  | walks_step (m : gmap string value) k ks v w :
      m !! k = Some v -> walks v ks w -> walks (VMap m) (k :: ks) w.

Module reflect.

(** [reflect.DeepEqual] on two decoded documents.  Values of different
    dynamic types differ; [float64]s are compared with [==]; slices are
    equal when they have the same length and equal elements; maps when
    they have the same length and every key of the first is bound in the
    second to an equal value. *)
Fixpoint DeepEqual (x y : value) {struct x} : bool :=
  match x, y with
  | VNil, VNil => true
  | VBool a, VBool b => Bool.eqb a b
  | VFloat64 a, VFloat64 b => PrimFloat.eqb a b
  | VString a, VString b => String.eqb a b
  | VSlice a, VSlice b =>
      (fix elems (a b : list value) {struct a} : bool :=
         match a, b with
         | [], [] => true
         | x :: a', y :: b' => DeepEqual x y && elems a' b'
         | _, _ => false
         end) a b
  | VMap a, VMap b =>
      (size a =? size b)%nat
      && map_fold (fun k v1 acc =>
                     acc && match b !! k with
                            | Some v2 => DeepEqual v1 v2
                            | None => false
                            end) true a
  | _, _ => false
  end.

End reflect.

(** ** Kubernetes API types, the fields the program reads or writes *)

Module metav1.

Record ObjectMeta := {
  Name : string;
  Namespace : string;
  Labels : gmap string string;
  Annotations : gmap string string;
}.

Record Status := { Message : string }.

(** The namespace constants of [k8s.io/apimachinery]. *)
Definition NamespaceSystem : string := "kube-system".
Definition NamespacePublic : string := "kube-public".

End metav1.

Module runtime.

(** [Raw []byte]; [None] is the nil slice. *)
Record RawExtension := { Raw : option (list Byte.byte) }.

End runtime.

Module v1beta1.

Record AdmissionRequest := {
  Object : runtime.RawExtension;
  OldObject : runtime.RawExtension;
}.

Variant PatchType := PatchTypeJSONPatch.

Record AdmissionResponse := {
  Allowed : bool;
  Result : option metav1.Status;
  Patch : option (list Byte.byte);
  PatchType_ : option PatchType;
}.

End v1beta1.

(** ** webhook.go *)

Definition EnabledLabel : string := "path-protector.wish.com/enabled".
Definition PathsAnnotationKey : string := "path-protector.wish.com/paths".

Definition ignoredNamespaces : list string :=
  [metav1.NamespaceSystem; metav1.NamespacePublic].

Record patchOperation := {
  Op : string;
  Path : string;
  Value : value;
}.

(** [objectWithMeta]: the [metadata] member of an object. *)
Record objectWithMeta := { ObjectMeta : metav1.ObjectMeta }.

Inductive result (A : Type) :=
  | Ok (a : A)
  | Err (err : error).
Arguments Ok {A} a.
Arguments Err {A} err.

(** The members [json.Marshal] writes for a [patchOperation], in the
    order of the struct's fields.  [Value] is tagged [omitempty]: for a
    field of interface type that leaves the member out exactly when the
    interface is nil. *)
Definition patchOperation_members (p : patchOperation) : list (string * value) :=
  ([("op", VString (Op p)); ("path", VString (Path p))]
   ++ match Value p with
      | VNil => []
      | v => [("value", v)]
      end)%list.

(** The library functions whose code is not part of the program: the
    text decoder and encoder of [encoding/json] at the three types the
    program uses them, and [strconv.Quote]. *)
Class GoLibrary := {
  (** [strconv.Quote] *)
  Quote : string -> string;
  (** [json.Unmarshal(data, &m)] for [var m objectWithMeta] *)
  Unmarshal_objectWithMeta : list Byte.byte -> result objectWithMeta;
  (** [json.Unmarshal(data, &m)] for [var m map[string]interface{}] *)
  Unmarshal_map : list Byte.byte -> result Record;
  (** the text [json.Marshal] writes for an array of structs, given the
      members of each *)
  Encode_structs : list (list (string * value)) -> result (list Byte.byte);
}.

Section webhook.
Context `{GoLibrary}.

(** [err.Error()] *)
Definition Error (err : error) : string :=
  match err with
  | errIgnoredNamespace => "Ignored namespace for mutation"
  | errNoLabel => "Missing label: " +:+ EnabledLabel
  | errLabelDisabled => "Label disabled execution"
  | NumError fn num e => "strconv." +:+ fn +:+ ": parsing " +:+ Quote num +:+ ": " +:+ e
  | jsonError text => text
  end.

(** [json.Marshal(patches)] for [patches []patchOperation] *)
Definition Marshal (patches : list patchOperation) : result (list Byte.byte) :=
  Encode_structs (map patchOperation_members patches).

(** The loop [for i, p := range strings.Split(paths, ",")] of
    [mutationRequired], at index [i] with [ps] left to visit.  The index
    stays in range, both slices being the same split. *)
Fixpoint trimLoop (i : nat) (ps : list string) (splitPaths : list string) : list string :=
  match ps with
  | [] => splitPaths
  | p :: rest => trimLoop (S i) rest (<[i := strings.TrimSpace p]> splitPaths)
  end.

(** [func mutationRequired(ignoredList []string, metadata *metav1.ObjectMeta) ([]string, error)] *)
Definition mutationRequired (ignoredList : list string) (metadata : metav1.ObjectMeta)
  : list string * option error :=
  if existsb (String.eqb (metav1.Namespace metadata)) ignoredList
  then ([], Some errIgnoredNamespace)
  else
    match metav1.Labels metadata !! EnabledLabel with
    | None => ([], Some errNoLabel)
    | Some v =>
        match strconv.ParseBool v with
        | (_, Some err) => ([], Some err)
        | (b, None) =>
            if negb b then ([], Some errLabelDisabled)
            else
              let annotations := metav1.Annotations metadata in
              match annotations !! PathsAnnotationKey with
              | None => ([], None)
              | Some paths =>
                  let splitPaths := strings.Split paths "," in
                  (trimLoop 0 (strings.Split paths ",") splitPaths, None)
              end
        end
    end.

(** [func patchForPath(path string, current, replacement Record) []patchOperation] *)
Definition patchForPath (path : string) (current replacement : Record)
  : list patchOperation :=
  let pathParts := strings.Split (strings.Trim path "/") "/" in
  match Get current pathParts with
  | (_, false) => []
  | (currentV, true) =>
      match Get replacement pathParts with
      | (newV, true) =>
          if reflect.DeepEqual currentV newV then []
          else [{| Op := "replace"; Path := path; Value := currentV |}]
      | (_, false) => [{| Op := "add"; Path := path; Value := currentV |}]
      end
  end.

(** The response literal [{Allowed: true}]. *)
Definition allowed : v1beta1.AdmissionResponse :=
  {| v1beta1.Allowed := true; v1beta1.Result := None;
     v1beta1.Patch := None; v1beta1.PatchType_ := None |}.

(** The response literal [{Result: &metav1.Status{Message: err.Error()}}];
    [Allowed] keeps its zero value. *)
Definition failed (err : error) : v1beta1.AdmissionResponse :=
  {| v1beta1.Allowed := false;
     v1beta1.Result := Some {| metav1.Message := Error err |};
     v1beta1.Patch := None; v1beta1.PatchType_ := None |}.

(** The bytes handed to [json.Unmarshal]: a nil slice is an empty input. *)
Definition bytes_of (raw : runtime.RawExtension) : list Byte.byte :=
  default [] (runtime.Raw raw).

(** The accumulator [patches] after the loop over [paths]. *)
Definition collectPatches (paths : list string) (currentMap newMap : Record)
  : list patchOperation :=
  foldl (fun patches path => (patches ++ patchForPath path currentMap newMap)%list) [] paths.

(** [func (whsvr *WebhookServer) mutate(req *v1beta1.AdmissionRequest) *v1beta1.AdmissionResponse] *)
Definition mutate (req : v1beta1.AdmissionRequest) : v1beta1.AdmissionResponse :=
  match Unmarshal_objectWithMeta (bytes_of (v1beta1.Object req)) with
  | Err err => failed err
  | Ok newManifest =>
      match mutationRequired ignoredNamespaces (ObjectMeta newManifest) with
      | (_, Some errIgnoredNamespace) => allowed
      | (_, Some errNoLabel) => allowed
      | (_, Some errLabelDisabled) => allowed
      | (_, Some err) => failed err
      | (paths, None) =>
          if (length paths =? 0)%nat then allowed
          else
            match
              match runtime.Raw (v1beta1.OldObject req) with
              | Some raw => Unmarshal_map raw
              | None => Ok ∅
              end
            with
            | Err err => failed err
            | Ok currentMap =>
                match Unmarshal_map (bytes_of (v1beta1.Object req)) with
                | Err err => failed err
                | Ok newMap =>
                    let patches := collectPatches paths currentMap newMap in
                    if (length patches =? 0)%nat then allowed
                    else
                      match Marshal patches with
                      | Err err => failed err
                      | Ok patchBytes =>
                          {| v1beta1.Allowed := true; v1beta1.Result := None;
                             v1beta1.Patch := Some patchBytes;
                             v1beta1.PatchType_ := Some v1beta1.PatchTypeJSONPatch |}
                      end
                end
            end
      end
  end.

End webhook.

(** ** The documents of [TestMutate]

    [encoding/json] is fixed here on the inputs of [webhook_test.go] (and
    a few more of the same shape), written without the white space
    between their tokens and each given with the document it decodes to,
    so that [mutate] can be run on them. *)

Module TestMutate.

Definition dquote : ascii := ascii_of_nat 34.

(** JSON text is written with ['] where the input has a double quote. *)
Fixpoint json (s : string) : string :=
  match s with
  | EmptyString => EmptyString
  | String c r => String (if Ascii.eqb c "'" then dquote else c) (json r)
  end.

Definition obj (members : list (string * value)) : value :=
  VMap (list_to_map members).

Definition str_member (m : gmap string value) (k : string) : option string :=
  match m !! k with
  | None | Some VNil => Some ""
  | Some (VString s) => Some s
  | Some _ => None
  end.

Definition str_map_member (m : gmap string value) (k : string)
  : option (gmap string string) :=
  match m !! k with
  | None | Some VNil => Some ∅
  | Some (VMap kv) =>
      let strs := omap (fun v => match v with VString s => Some s | _ => None end) kv in
      if (size strs =? size kv)%nat then Some strs else None
  | Some _ => None
  end.

(** The [objectWithMeta] a decoded object yields: its [metadata] member,
    read at the types of [metav1.ObjectMeta]. *)
Definition meta_of (doc : Record) : result objectWithMeta :=
  let mismatch := Err (jsonError "json: cannot unmarshal into Go struct field of objectWithMeta") in
  match doc !! "metadata" with
  | None | Some VNil => Ok {| ObjectMeta := metav1.Build_ObjectMeta "" "" ∅ ∅ |}
  | Some (VMap m) =>
      match str_member m "name", str_member m "namespace",
            str_map_member m "labels", str_map_member m "annotations" with
      | Some n, Some ns, Some ls, Some ans =>
          Ok {| ObjectMeta := metav1.Build_ObjectMeta n ns ls ans |}
      | _, _, _, _ => mismatch
      end
  | Some _ => mismatch
  end.

(** The manifest of a document whose metadata is well typed. *)
Definition manifest (doc : Record) : objectWithMeta :=
  match meta_of doc with
  | Ok newManifest => newManifest
  | Err _ => {| ObjectMeta := metav1.Build_ObjectMeta "" "" ∅ ∅ |}
  end.

Definition enabled (v : string) : string * value :=
  ("labels", obj [(EnabledLabel, VString v)]).

Definition protect (paths : string) : string * value :=
  ("annotations", obj [(PathsAnnotationKey, VString paths)]).

Definition testns : list (string * value) :=
  [("namespace", VString "testns"); ("name", VString "testdeployment")].

(** Input texts, each with the document it decodes to. *)

Definition empty_object : string * Record :=
  ("{}",
   ∅).

Definition label_false : string * Record :=
  ("{'metadata':{'labels':{'path-protector.wish.com/enabled':'false'}}}",
   {[ "metadata" := obj [enabled "false"] ]}).

Definition label_notabool : string * Record :=
  ("{'metadata':{'labels':{'path-protector.wish.com/enabled':'NOTABOOL'}}}",
   {[ "metadata" := obj [enabled "NOTABOOL"] ]}).

Definition label_true : string * Record :=
  ("{'metadata':{'labels':{'path-protector.wish.com/enabled':'true'}}}",
   {[ "metadata" := obj [enabled "true"] ]}).

Definition new_one_path : string * Record :=
  ("{'metadata':{'annotations':{'path-protector.wish.com/paths':'/spec/replicas'},'labels':{'path-protector.wish.com/enabled':'true'},'namespace':'testns','name':'testdeployment'},'spec':{'replicas':1}}",
   {[ "metadata" := obj (protect "/spec/replicas" :: enabled "true" :: testns);
     "spec" := obj [("replicas", VFloat64 1)] ]}).

Definition new_one_path_unset : string * Record :=
  ("{'metadata':{'annotations':{'path-protector.wish.com/paths':'/spec/replicas'},'labels':{'path-protector.wish.com/enabled':'true'},'namespace':'testns','name':'testdeployment'},'spec':{}}",
   {[ "metadata" := obj (protect "/spec/replicas" :: enabled "true" :: testns);
     "spec" := obj [] ]}).

Definition old_replicas : string * Record :=
  ("{'metadata':{'namespace':'testns','name':'testdeployment'},'spec':{'replicas':10}}",
   {[ "metadata" := obj testns; "spec" := obj [("replicas", VFloat64 10)] ]}).

Definition old_unset : string * Record :=
  ("{'metadata':{'namespace':'testns','name':'testdeployment'},'spec':{}}",
   {[ "metadata" := obj testns; "spec" := obj [] ]}).

Definition old_null : string * Record :=
  ("{'metadata':{'namespace':'testns','name':'testdeployment'},'spec':{'replicas':null}}",
   {[ "metadata" := obj testns; "spec" := obj [("replicas", VNil)] ]}).

Definition new_two_paths : string * Record :=
  ("{'metadata':{'annotations':{'path-protector.wish.com/paths':'/spec/replicas, /metadata/labels/testlabel'},'labels':{'path-protector.wish.com/enabled':'true','testlabel':'new'},'namespace':'testns','name':'testdeployment'},'spec':{'replicas':1}}",
   {[ "metadata" := obj (protect "/spec/replicas, /metadata/labels/testlabel"
                        :: ("labels", obj [(EnabledLabel, VString "true"); ("testlabel", VString "new")])
                        :: testns);
     "spec" := obj [("replicas", VFloat64 1)] ]}).

Definition new_two_paths_unset : string * Record :=
  ("{'metadata':{'annotations':{'path-protector.wish.com/paths':'/spec/replicas, /metadata/labels/testlabel'},'labels':{'path-protector.wish.com/enabled':'true'},'namespace':'testns','name':'testdeployment'},'spec':{}}",
   {[ "metadata" := obj (protect "/spec/replicas, /metadata/labels/testlabel" :: enabled "true" :: testns);
     "spec" := obj [] ]}).

Definition old_labelled : string * Record :=
  ("{'metadata':{'labels':{'path-protector.wish.com/enabled':'true','testlabel':'existing'},'namespace':'testns','name':'testdeployment'},'spec':{'replicas':10}}",
   {[ "metadata" := obj (("labels", obj [(EnabledLabel, VString "true"); ("testlabel", VString "existing")])
                        :: testns);
     "spec" := obj [("replicas", VFloat64 10)] ]}).

Definition new_kube_system : string * Record :=
  ("{'metadata':{'annotations':{'path-protector.wish.com/paths':'/spec/replicas'},'labels':{'path-protector.wish.com/enabled':'NOTABOOL'},'namespace':'kube-system','name':'testdeployment'},'spec':{'replicas':1}}",
   {[ "metadata" := obj [protect "/spec/replicas"; enabled "NOTABOOL";
                        ("namespace", VString "kube-system"); ("name", VString "testdeployment")];
     "spec" := obj [("replicas", VFloat64 1)] ]}).

Definition new_duplicate_path : string * Record :=
  ("{'metadata':{'annotations':{'path-protector.wish.com/paths':'/spec/replicas,/spec/replicas'},'labels':{'path-protector.wish.com/enabled':'true'},'namespace':'testns','name':'testdeployment'},'spec':{'replicas':1}}",
   {[ "metadata" := obj (protect "/spec/replicas,/spec/replicas" :: enabled "true" :: testns);
     "spec" := obj [("replicas", VFloat64 1)] ]}).

Definition documents : list (string * Record) :=
  [ empty_object;
    label_false;
    label_notabool;
    label_true;
    new_one_path;
    new_one_path_unset;
    old_replicas;
    old_unset;
    old_null;
    new_two_paths;
    new_two_paths_unset;
    old_labelled;
    new_kube_system;
    new_duplicate_path ].

(** [json.Unmarshal] into a map: the empty input ends too early, a text
    of the table decodes to its document. *)
Definition decode (data : list Byte.byte) : result Record :=
  let text := string_of_list_byte data in
  if String.eqb text "" then Err (jsonError "unexpected end of JSON input")
  else match find (fun d => String.eqb text (json (fst d))) documents with
       | Some d => Ok (snd d)
       | None => Err (jsonError "input outside the table of documents")
       end.

(** Decimal text of the numbers the documents hold. *)
Definition number_text (f : float) : result string :=
  match find (fun n => PrimFloat.eqb f (PrimFloat.of_uint63 (Uint63.of_Z (Z.of_nat n)))) (seq 0 100) with
  | Some n => Ok (pretty n)
  | None => Err (jsonError "number outside the table of documents")
  end.

Definition quoted (s : string) : string :=
  String dquote s +:+ String dquote "".

(** [json.Marshal] on the scalars the patches of the tests carry. *)
Definition scalar_text (v : value) : result string :=
  match v with
  | VNil => Ok "null"
  | VBool b => Ok (if b then "true" else "false")
  | VFloat64 f => number_text f
  | VString s => Ok (quoted s)
  | _ => Err (jsonError "value outside the table of documents")
  end.

Fixpoint members_text (ms : list (string * value)) : result string :=
  match ms with
  | [] => Ok ""
  | (k, v) :: rest =>
      match scalar_text v, members_text rest with
      | Ok t, Ok ts =>
          Ok (quoted k +:+ ":" +:+ t +:+ (if String.eqb ts "" then "" else "," +:+ ts))
      | Err e, _ | _, Err e => Err e
      end
  end.

Fixpoint structs_text (l : list (list (string * value))) : result string :=
  match l with
  | [] => Ok ""
  | ms :: rest =>
      match members_text ms, structs_text rest with
      | Ok t, Ok ts =>
          Ok ("{" +:+ t +:+ "}" +:+ (if String.eqb ts "" then "" else "," +:+ ts))
      | Err e, _ | _, Err e => Err e
      end
  end.

Definition encode (l : list (list (string * value))) : result (list Byte.byte) :=
  match structs_text l with
  | Ok t => Ok (list_byte_of_string ("[" +:+ t +:+ "]"))
  | Err e => Err e
  end.

#[local] Instance library : GoLibrary := {|
  Quote := quoted;
  Unmarshal_objectWithMeta data :=
    match decode data with
    | Ok doc => meta_of doc
    | Err e => Err e
    end;
  Unmarshal_map := decode;
  Encode_structs := encode;
|}.

Definition raw (text : string) : list Byte.byte :=
  list_byte_of_string (json text).

(** A request for the new object [new], and the old object when it is an
    update. *)
Definition request (new : string) (old : option string) : v1beta1.AdmissionRequest :=
  {| v1beta1.Object := {| runtime.Raw := Some (raw new) |};
     v1beta1.OldObject := {| runtime.Raw := raw <$> old |} |}.

Definition patched (patch : string) : v1beta1.AdmissionResponse :=
  {| v1beta1.Allowed := true; v1beta1.Result := None;
     v1beta1.Patch := Some (raw patch);
     v1beta1.PatchType_ := Some v1beta1.PatchTypeJSONPatch |}.

Definition message (text : string) : v1beta1.AdmissionResponse :=
  {| v1beta1.Allowed := false;
     v1beta1.Result := Some {| metav1.Message := text |};
     v1beta1.Patch := None; v1beta1.PatchType_ := None |}.

End TestMutate.

(** ** The specification's vocabulary *)

(** The segments of a protected path: the path without its leading and
    trailing slashes, split on the slash. *)
Definition segments (path : string) : list string :=
  strings.Split (strings.Trim path "/") "/".

(** The old and the new document differ at a path: the old one has a
    value there, and the new one has none, or one that is not deeply
    equal to it. *)
Definition differs (currentMap newMap : Record) (path : string) : Prop :=
  exists currentV, Get currentMap (segments path) = (currentV, true)
    /\ forall newV, Get newMap (segments path) = (newV, true) ->
         reflect.DeepEqual currentV newV = false.

(** The operations the system may emit. *)
Definition restoring (op : patchOperation) : Prop :=
  (Op op = "add" \/ Op op = "replace") /\ Op op <> "remove".

Section outcomes.
Context `{GoLibrary}.

(** [currentMap] as [mutate] fills it: decoded from the old object when
    the request carries one, and left nil otherwise. *)
Definition oldDocument (req : v1beta1.AdmissionRequest) : result Record :=
  match runtime.Raw (v1beta1.OldObject req) with
  | Some raw => Unmarshal_map raw
  | None => Ok ∅
  end.

(** The response [mutate] ends with, once [patches] is accumulated. *)
Definition respond (patches : list patchOperation) : v1beta1.AdmissionResponse :=
  if (length patches =? 0)%nat then allowed
  else match Marshal patches with
       | Err err => failed err
       | Ok patchBytes =>
           {| v1beta1.Allowed := true; v1beta1.Result := None;
              v1beta1.Patch := Some patchBytes;
              v1beta1.PatchType_ := Some v1beta1.PatchTypeJSONPatch |}
       end.

(** The internal failures of a request, each with the error it raises:
    the new object does not decode, the enabling label of an object
    outside the ignored namespaces is not a boolean, or protected paths
    are declared and the old or the new document does not decode. *)
Inductive internal_failure (req : v1beta1.AdmissionRequest) : error -> Prop :=
  | malformed_new err :
      Unmarshal_objectWithMeta (bytes_of (v1beta1.Object req)) = Err err ->
      internal_failure req err
  | malformed_label newManifest v b err :
      Unmarshal_objectWithMeta (bytes_of (v1beta1.Object req)) = Ok newManifest ->
      metav1.Namespace (ObjectMeta newManifest) ∉ ignoredNamespaces ->
      metav1.Labels (ObjectMeta newManifest) !! EnabledLabel = Some v ->
      strconv.ParseBool v = (b, Some err) ->
      internal_failure req err
  | malformed_old newManifest paths err :
      Unmarshal_objectWithMeta (bytes_of (v1beta1.Object req)) = Ok newManifest ->
      mutationRequired ignoredNamespaces (ObjectMeta newManifest) = (paths, None) ->
      paths <> [] ->
      oldDocument req = Err err ->
      internal_failure req err
  | malformed_new_document newManifest paths currentMap err :
      Unmarshal_objectWithMeta (bytes_of (v1beta1.Object req)) = Ok newManifest ->
      mutationRequired ignoredNamespaces (ObjectMeta newManifest) = (paths, None) ->
      paths <> [] ->
      oldDocument req = Ok currentMap ->
      Unmarshal_map (bytes_of (v1beta1.Object req)) = Err err ->
      internal_failure req err.

End outcomes.

(** * Properties *)

(** ** Splitting and trimming *)

Lemma Split_length (s : string) (sep : ascii) :
  length (strings.Split s sep) = S (strings.Count s sep).
Proof.
  induction s as [|c r IH]; simpl; [reflexivity|].
  destruct (Ascii.eqb c sep); simpl.
  - by rewrite IH.
  - destruct (strings.Split r sep) as [|h t]; simpl in *; lia.
Qed.

Lemma Split_nonempty (s : string) (sep : ascii) : strings.Split s sep <> [].
Proof.
  intros E. pose proof (Split_length s sep) as L. rewrite E in L. discriminate.
Qed.

Lemma Join_Split (s : string) (sep : ascii) :
  strings.Join (strings.Split s sep) sep = s.
Proof.
  induction s as [|c r IH]; simpl; [reflexivity|].
  destruct (Ascii.eqb_spec c sep) as [->|_].
  - pose proof (Split_nonempty r sep).
    destruct (strings.Split r sep) as [|h t] eqn:E; [done|].
    simpl in *. by rewrite IH.
  - destruct (strings.Split r sep) as [|h t] eqn:E.
    + by destruct (Split_nonempty r sep).
    + rewrite <- IH. destruct t; reflexivity.
Qed.

(** ** [Record.Get] *)

Lemma Get_loop_walks (v : value) (ks : list string) (w : value) :
  Get_loop v ks = (w, true) <-> walks v ks w.
Proof.
  split.
  - revert v. induction ks as [|k ks IH]; intros v E; simpl in E.
    + injection E as ->. constructor.
    + destruct v as [| | | | |m]; try discriminate.
      destruct (m !! k) as [v'|] eqn:L; [|discriminate].
      econstructor; eauto.
  - induction 1 as [v|m k ks v w L _ IH]; simpl; [reflexivity|].
    by rewrite L.
Qed.

Lemma Get_loop_miss (v : value) (ks : list string) :
  snd (Get_loop v ks) = false -> Get_loop v ks = (VNil, false).
Proof.
  revert v. induction ks as [|k ks IH]; intros v; simpl; [discriminate|].
  destruct v as [| | | | |m]; try reflexivity.
  destruct (m !! k); [apply IH|reflexivity].
Qed.

Lemma Get_loop_app (v w : value) (pre rest : list string) :
  walks v pre w -> Get_loop v (pre ++ rest) = Get_loop w rest.
Proof.
  induction 1 as [v|m k ks v w L _ IH]; simpl; [reflexivity|].
  by rewrite L.
Qed.

Lemma Get_Get_loop (r : Record) (k : string) (ks : list string) :
  Get r (k :: ks) = Get_loop (VMap r) (k :: ks).
Proof. reflexivity. Qed.

Lemma Get_found (r : Record) (ks : list string) (w : value) :
  Get r ks = (w, true) <-> ks <> [] /\ walks (VMap r) ks w.
Proof.
  destruct ks as [|k ks].
  - split; [discriminate|]. by intros [? _].
  - rewrite Get_Get_loop, Get_loop_walks.
    split; [intros W; by split|by intros [_ W]].
Qed.

Lemma Get_miss (r : Record) (ks : list string) :
  snd (Get r ks) = false -> Get r ks = (VNil, false).
Proof.
  destruct ks as [|k ks]; [reflexivity|].
  rewrite Get_Get_loop. apply Get_loop_miss.
Qed.

(** C9: [Record.Get] finds nothing for an empty segment list; it finds
    [v] exactly when the segments lead from the record to [v] through
    string-keyed mappings; it finds nothing as soon as a value met before
    the last segment is not such a mapping, or a key is not bound; and
    what it returns with not-found is nil. *)
Theorem Get_spec (r : Record) (nameParts : list string) :
  Get r [] = (VNil, false)
  /\ (forall v : value,
        Get r nameParts = (v, true) <-> nameParts <> [] /\ walks (VMap r) nameParts v)
  /\ (forall (pre : list string) (v : value) (k : string) (post : list string),
        walks (VMap r) pre v -> (forall m, v <> VMap m) ->
        Get r (pre ++ k :: post) = (VNil, false))
  /\ (forall (pre : list string) (m : gmap string value) (k : string) (post : list string),
        walks (VMap r) pre (VMap m) -> m !! k = None ->
        Get r (pre ++ k :: post) = (VNil, false))
  /\ (snd (Get r nameParts) = false -> Get r nameParts = (VNil, false)).
Proof.
  split; [reflexivity|].
  split; [intros v; apply Get_found|].
  split; [|split; [|apply Get_miss]].
  - intros pre v k post W notmap.
    assert (Get r (pre ++ k :: post) = Get_loop v (k :: post)) as ->.
    { destruct pre as [|p pre]; simpl app.
      - inversion W; subst. by destruct (notmap r).
      - rewrite Get_Get_loop. by apply (Get_loop_app _ _ (p :: pre)). }
    simpl. destruct v; try reflexivity. by destruct (notmap m).
  - intros pre m k post W miss.
    assert (Get r (pre ++ k :: post) = Get_loop (VMap m) (k :: post)) as ->.
    { destruct pre as [|p pre]; simpl app.
      - inversion W; subst. reflexivity.
      - rewrite Get_Get_loop. by apply (Get_loop_app _ _ (p :: pre)). }
    simpl. by rewrite miss.
Qed.

(** ** [reflect.DeepEqual] is structural *)

Lemma DeepEqual_VMap (a b : gmap string value) :
  reflect.DeepEqual (VMap a) (VMap b) = true
  <-> size a = size b
      /\ forall k v1, a !! k = Some v1 ->
           exists v2, b !! k = Some v2 /\ reflect.DeepEqual v1 v2 = true.
Proof.
  change (reflect.DeepEqual (VMap a) (VMap b))
    with ((size a =? size b)%nat
          && map_fold (fun k v1 acc =>
                         acc && match b !! k with
                                | Some v2 => reflect.DeepEqual v1 v2
                                | None => false
                                end) true a).
  rewrite andb_true_iff, Nat.eqb_eq.
  apply and_iff_compat_l.
  apply (map_fold_weak_ind (fun res (m : gmap string value) =>
    res = true <-> forall k v1, m !! k = Some v1 ->
      exists v2, b !! k = Some v2 /\ reflect.DeepEqual v1 v2 = true)).
  - split; [|done]. intros _ k v1. by rewrite lookup_empty.
  - intros k v1 m res fresh IH. rewrite andb_true_iff, IH. split.
    + intros [Hm Hk] k' v1'. rewrite lookup_insert.
      case_decide as E.
      * intros [= <-]. subst k'.
        destruct (b !! k) as [v2|]; [eauto|discriminate].
      * apply Hm.
    + intros Hall. split.
      * intros k' v1' L. apply Hall. rewrite lookup_insert_ne; [done|].
        intros ->. congruence.
      * destruct (Hall k v1) as (v2 & -> & E); [|done].
        by rewrite lookup_insert_eq.
Qed.

Lemma DeepEqual_VSlice (a b : list value) :
  reflect.DeepEqual (VSlice a) (VSlice b) = true
  <-> Forall2 (fun x y => reflect.DeepEqual x y = true) a b.
Proof.
  revert b. induction a as [|x a IH]; intros [|y b].
  - split; [constructor|reflexivity].
  - split; [discriminate|inversion 1].
  - split; [discriminate|inversion 1].
  - change (reflect.DeepEqual (VSlice (x :: a)) (VSlice (y :: b)))
      with (reflect.DeepEqual x y && reflect.DeepEqual (VSlice a) (VSlice b)).
    rewrite andb_true_iff, IH. split.
    + intros [? ?]. by constructor.
    + inversion 1; subst. done.
Qed.

Lemma DeepEqual_nil (w : value) :
  reflect.DeepEqual VNil w = true <-> w = VNil.
Proof. destruct w; simpl; split; congruence. Qed.

(** ** [patchForPath] *)



Section webhook_properties.
Context `{GoLibrary}.

Lemma trimLoop_app (done ps rest : list string) :
  trimLoop (length done) ps (done ++ ps ++ rest)
  = done ++ map strings.TrimSpace ps ++ rest.
Proof.
  revert done. induction ps as [|p ps IH]; intros done; simpl; [reflexivity|].
  replace (<[length done := strings.TrimSpace p]> (done ++ p :: ps ++ rest))
    with ((done ++ [strings.TrimSpace p]) ++ ps ++ rest).
  - replace (S (length done)) with (length (done ++ [strings.TrimSpace p]))
      by (rewrite length_app; simpl; lia).
    rewrite IH. by rewrite <- app_assoc.
  - rewrite insert_app_r_alt by lia.
    rewrite Nat.sub_diag. simpl. by rewrite <- app_assoc.
Qed.

Lemma trimLoop_map (ps : list string) :
  trimLoop 0 ps ps = map strings.TrimSpace ps.
Proof.
  pose proof (trimLoop_app [] ps []) as E. simpl in E.
  by rewrite !app_nil_r in E.
Qed.

(** ** [mutationRequired] *)

Lemma existsb_eqb_elem (x : string) (l : list string) :
  existsb (String.eqb x) l = true <-> x ∈ l.
Proof.
  rewrite existsb_exists, list_elem_of_In. split.
  - intros (y & Hy & E). apply String.eqb_eq in E. by subst.
  - intros Hx. exists x. by rewrite String.eqb_refl.
Qed.

Lemma existsb_eqb_not_elem (x : string) (l : list string) :
  x ∉ l -> existsb (String.eqb x) l = false.
Proof.
  intros Hx. apply not_true_is_false. by rewrite existsb_eqb_elem.
Qed.

Lemma ParseBool_error (v : string) (b : bool) (err : error) :
  strconv.ParseBool v = (b, Some err) ->
  b = false /\ err = NumError "ParseBool" v strconv.ErrSyntax.
Proof.
  unfold strconv.ParseBool. repeat case_bool_decide; by intros [= <- <-].
Qed.

Lemma mutationRequired_ignored (ignoredList : list string) (metadata : metav1.ObjectMeta) :
  metav1.Namespace metadata ∈ ignoredList ->
  mutationRequired ignoredList metadata = ([], Some errIgnoredNamespace).
Proof.
  intros Hns. unfold mutationRequired.
  by rewrite (proj2 (existsb_eqb_elem _ _) Hns).
Qed.

Lemma mutationRequired_malformed (ignoredList : list string) (metadata : metav1.ObjectMeta)
    (v : string) (b : bool) (err : error) :
  metav1.Namespace metadata ∉ ignoredList ->
  metav1.Labels metadata !! EnabledLabel = Some v ->
  strconv.ParseBool v = (b, Some err) ->
  mutationRequired ignoredList metadata = ([], Some err).
Proof.
  intros Hns Hl Hp. unfold mutationRequired.
  by rewrite (existsb_eqb_not_elem _ _ Hns), Hl, Hp.
Qed.

Lemma mutationRequired_eligible (ignoredList : list string) (metadata : metav1.ObjectMeta)
    (v : string) :
  metav1.Namespace metadata ∉ ignoredList ->
  metav1.Labels metadata !! EnabledLabel = Some v ->
  strconv.ParseBool v = (true, None) ->
  mutationRequired ignoredList metadata
  = match metav1.Annotations metadata !! PathsAnnotationKey with
    | Some paths => (map strings.TrimSpace (strings.Split paths ","), None)
    | None => ([], None)
    end.
Proof.
  intros Hns Hl Hp. unfold mutationRequired.
  rewrite (existsb_eqb_not_elem _ _ Hns), Hl, Hp. simpl.
  destruct (metav1.Annotations metadata !! PathsAnnotationKey); [|reflexivity].
  by rewrite trimLoop_map.
Qed.

(** ** The accumulated patches *)

Lemma collectPatches_foldl (acc : list patchOperation) (paths : list string)
    (currentMap newMap : Record) :
  foldl (fun patches path => patches ++ patchForPath path currentMap newMap) acc paths
  = acc ++ collectPatches paths currentMap newMap.
Proof.
  unfold collectPatches. revert acc.
  induction paths as [|path paths IH]; intros acc; simpl.
  - by rewrite app_nil_r.
  - rewrite IH, (IH (patchForPath _ _ _)). by rewrite app_assoc.
Qed.

Lemma collectPatches_cons (path : string) (paths : list string)
    (currentMap newMap : Record) :
  collectPatches (path :: paths) currentMap newMap
  = patchForPath path currentMap newMap ++ collectPatches paths currentMap newMap.
Proof. unfold collectPatches at 1. simpl. apply collectPatches_foldl. Qed.

Lemma patchForPath_cases (path : string) (currentMap newMap : Record) :
  patchForPath path currentMap newMap = []
  \/ exists op, patchForPath path currentMap newMap = [op]
       /\ Path op = path /\ restoring op.
Proof.
  unfold patchForPath, restoring.
  destruct (Get currentMap _) as [currentV [|]]; [|by left].
  destruct (Get newMap _) as [newV [|]].
  - destruct (reflect.DeepEqual currentV newV); [by left|].
    right. eexists. simpl. split_and!; eauto; discriminate.
  - right. eexists. simpl. split_and!; eauto; discriminate.
Qed.

Lemma patchForPath_differs (path : string) (currentMap newMap : Record) :
  differs currentMap newMap path ->
  exists op, patchForPath path currentMap newMap = [op] /\ Path op = path.
Proof.
  intros (currentV & Ec & Hn). unfold patchForPath. fold (segments path).
  rewrite Ec. destruct (Get newMap _) as [newV [|]] eqn:En.
  - rewrite (Hn newV eq_refl). by eexists.
  - by eexists.
Qed.

Lemma collectPatches_sublist (paths : list string) (currentMap newMap : Record) :
  sublist (Path <$> collectPatches paths currentMap newMap) paths.
Proof.
  induction paths as [|path paths IH]; [constructor|].
  rewrite collectPatches_cons.
  destruct (patchForPath_cases path currentMap newMap) as [->|(op & -> & <- & _)]; simpl.
  - by apply sublist_cons.
  - by apply sublist_skip.
Qed.

Lemma collectPatches_restoring (paths : list string) (currentMap newMap : Record) :
  Forall restoring (collectPatches paths currentMap newMap).
Proof.
  induction paths as [|path paths IH]; [constructor|].
  rewrite collectPatches_cons.
  destruct (patchForPath_cases path currentMap newMap) as [->|(op & -> & _ & Hop)]; simpl.
  - done.
  - by constructor.
Qed.

(** ** [mutate] *)

Lemma mutate_undecodable (req : v1beta1.AdmissionRequest) (err : error) :
  Unmarshal_objectWithMeta (bytes_of (v1beta1.Object req)) = Err err ->
  mutate req = failed err.
Proof. intros E. unfold mutate. by rewrite E. Qed.

Lemma mutate_required (req : v1beta1.AdmissionRequest) (newManifest : objectWithMeta)
    (paths : list string) (err : error) :
  Unmarshal_objectWithMeta (bytes_of (v1beta1.Object req)) = Ok newManifest ->
  mutationRequired ignoredNamespaces (ObjectMeta newManifest) = (paths, Some err) ->
  mutate req = match err with
               | errIgnoredNamespace | errNoLabel | errLabelDisabled => allowed
               | _ => failed err
               end.
Proof. intros E R. unfold mutate. rewrite E, R. by destruct err. Qed.

Lemma mutate_eligible (req : v1beta1.AdmissionRequest) (newManifest : objectWithMeta)
    (paths : list string) (currentMap newMap : Record) :
  Unmarshal_objectWithMeta (bytes_of (v1beta1.Object req)) = Ok newManifest ->
  mutationRequired ignoredNamespaces (ObjectMeta newManifest) = (paths, None) ->
  oldDocument req = Ok currentMap ->
  Unmarshal_map (bytes_of (v1beta1.Object req)) = Ok newMap ->
  mutate req = respond (collectPatches paths currentMap newMap).
Proof.
  intros E R Eo En. unfold mutate, oldDocument in *. rewrite E, R.
  destruct paths as [|path paths]; [reflexivity|].
  simpl length. cbv beta iota delta [Nat.eqb].
  by rewrite Eo, En.
Qed.

Lemma mutate_patch_inv (req : v1beta1.AdmissionRequest) (patchBytes : list Byte.byte) :
  v1beta1.Patch (mutate req) = Some patchBytes ->
  exists newManifest paths currentMap newMap,
    Unmarshal_objectWithMeta (bytes_of (v1beta1.Object req)) = Ok newManifest
    /\ mutationRequired ignoredNamespaces (ObjectMeta newManifest) = (paths, None)
    /\ oldDocument req = Ok currentMap
    /\ Unmarshal_map (bytes_of (v1beta1.Object req)) = Ok newMap
    /\ Marshal (collectPatches paths currentMap newMap) = Ok patchBytes.
Proof.
  unfold mutate, oldDocument.
  destruct (Unmarshal_objectWithMeta _) as [newManifest|err] eqn:E; [|discriminate].
  destruct (mutationRequired _ _) as [paths [err|]] eqn:R; [by destruct err|].
  destruct (length paths =? 0)%nat; [discriminate|].
  destruct (match runtime.Raw _ with Some raw => _ | None => _ end)
    as [currentMap|err] eqn:Eo; [|discriminate].
  destruct (Unmarshal_map (bytes_of _)) as [newMap|err] eqn:En; [|discriminate].
  simpl. destruct (length _ =? 0)%nat; [discriminate|].
  destruct (Marshal _) as [bytes|err] eqn:Em; [|discriminate].
  intros [= <-]. by exists newManifest, paths, currentMap, newMap.
Qed.

(** C3: when the new object does not decode, [mutate] answers with the
    decoder's error text as the message and with no patch. *)
Theorem mutate_malformed_new (req : v1beta1.AdmissionRequest) (err : error) :
  Unmarshal_objectWithMeta (bytes_of (v1beta1.Object req)) = Err err ->
  mutate req = failed err
  /\ v1beta1.Result (mutate req) = Some {| metav1.Message := Error err |}
  /\ v1beta1.Patch (mutate req) = None
  /\ v1beta1.PatchType_ (mutate req) = None.
Proof.
  intros E. by rewrite (mutate_undecodable _ _ E).
Qed.

(** C4: an object of an ignored namespace is allowed without a patch,
    whatever its labels and annotations are: the namespace is looked at
    before them. *)
Theorem mutate_ignored_namespace (req : v1beta1.AdmissionRequest)
    (newManifest : objectWithMeta) :
  Unmarshal_objectWithMeta (bytes_of (v1beta1.Object req)) = Ok newManifest ->
  metav1.Namespace (ObjectMeta newManifest) ∈ ignoredNamespaces ->
  mutationRequired ignoredNamespaces (ObjectMeta newManifest)
  = ([], Some errIgnoredNamespace)
  /\ mutate req = allowed
  /\ v1beta1.Allowed (mutate req) = true
  /\ v1beta1.Patch (mutate req) = None
  /\ v1beta1.Result (mutate req) = None.
Proof.
  intros E Hns.
  pose proof (mutationRequired_ignored _ _ Hns) as R.
  by rewrite (mutate_required _ _ _ _ E R).
Qed.

(** C5: when the object is outside the ignored namespaces and its
    enabling label does not parse as a boolean, [mutate] answers with the
    parser's error text as the message and with no patch; it is not one
    of the skips. *)
Theorem mutate_malformed_label (req : v1beta1.AdmissionRequest)
    (newManifest : objectWithMeta) (v : string) (b : bool) (err : error) :
  Unmarshal_objectWithMeta (bytes_of (v1beta1.Object req)) = Ok newManifest ->
  metav1.Namespace (ObjectMeta newManifest) ∉ ignoredNamespaces ->
  metav1.Labels (ObjectMeta newManifest) !! EnabledLabel = Some v ->
  strconv.ParseBool v = (b, Some err) ->
  mutate req = failed err
  /\ v1beta1.Result (mutate req) = Some {| metav1.Message := Error err |}
  /\ v1beta1.Patch (mutate req) = None
  /\ Error err = "strconv.ParseBool: parsing " +:+ Quote v +:+ ": invalid syntax".
Proof.
  intros E Hns Hl Hp.
  pose proof (mutationRequired_malformed _ _ _ _ _ Hns Hl Hp) as R.
  rewrite (mutate_required _ _ _ _ E R).
  apply ParseBool_error in Hp as [_ ->]. done.
Qed.

(** C6: for an object outside the ignored namespaces whose enabling label
    parses as true, the protected paths are the elements of the paths
    annotation between its commas, each without the white space around
    it, in the annotation's order and as many as there are commas plus
    one; without the annotation there are none, and the request is
    allowed without a patch. *)
Theorem mutationRequired_paths (req : v1beta1.AdmissionRequest)
    (newManifest : objectWithMeta) (v : string) :
  Unmarshal_objectWithMeta (bytes_of (v1beta1.Object req)) = Ok newManifest ->
  metav1.Namespace (ObjectMeta newManifest) ∉ ignoredNamespaces ->
  metav1.Labels (ObjectMeta newManifest) !! EnabledLabel = Some v ->
  strconv.ParseBool v = (true, None) ->
  match metav1.Annotations (ObjectMeta newManifest) !! PathsAnnotationKey with
  | Some paths =>
      exists resolved,
        mutationRequired ignoredNamespaces (ObjectMeta newManifest) = (resolved, None)
        /\ resolved = map strings.TrimSpace (strings.Split paths ",")
        /\ length resolved = S (strings.Count paths ",")
        /\ strings.Join (strings.Split paths ",") "," = paths
  | None =>
      mutationRequired ignoredNamespaces (ObjectMeta newManifest) = ([], None)
      /\ mutate req = allowed
  end.
Proof.
  intros E Hns Hl Hp.
  pose proof (mutationRequired_eligible _ _ _ Hns Hl Hp) as R.
  destruct (metav1.Annotations _ !! PathsAnnotationKey) as [paths|].
  - eexists. split; [exact R|]. split; [reflexivity|].
    split; [|apply Join_Split].
    by rewrite length_map, Split_length.
  - split; [exact R|]. unfold mutate. by rewrite E, R.
Qed.

(** C2, as the code has it: on an internal failure [mutate] answers with
    the error's text as the message, with no patch, and with [Allowed]
    left false. *)
Theorem mutate_internal_failure (req : v1beta1.AdmissionRequest) (err : error) :
  internal_failure req err ->
  mutate req = failed err
  /\ v1beta1.Allowed (mutate req) = false
  /\ v1beta1.Result (mutate req) = Some {| metav1.Message := Error err |}
  /\ v1beta1.Patch (mutate req) = None
  /\ v1beta1.PatchType_ (mutate req) = None.
Proof.
  intros F.
  assert (mutate req = failed err) as ->; [|done].
  destruct F as [err E|newManifest v b err E Hns Hl Hp
                |newManifest paths err E R Hne Eo
                |newManifest paths currentMap err E R Hne Eo En].
  - by apply mutate_undecodable.
  - pose proof (mutationRequired_malformed _ _ _ _ _ Hns Hl Hp) as R.
    rewrite (mutate_required _ _ _ _ E R).
    by apply ParseBool_error in Hp as [_ ->].
  - unfold mutate, oldDocument in *. rewrite E, R.
    destruct paths; [done|]. simpl. by rewrite Eo.
  - unfold mutate, oldDocument in *. rewrite E, R.
    destruct paths; [done|]. simpl. by rewrite Eo, En.
Qed.

(** C7: the patch [mutate] returns is the encoding of operations that are
    all "add" or "replace"; none is a "remove". *)
Theorem mutate_never_removes (req : v1beta1.AdmissionRequest)
    (patchBytes : list Byte.byte) :
  v1beta1.Patch (mutate req) = Some patchBytes ->
  exists patches,
    Marshal patches = Ok patchBytes
    /\ patches <> []
    /\ Forall (fun op => (Op op = "add" \/ Op op = "replace") /\ Op op <> "remove")
              patches.
Proof.
  intros P.
  pose proof P as (newManifest & paths & currentMap & newMap & E & R & Eo & En & Em)%mutate_patch_inv.
  exists (collectPatches paths currentMap newMap).
  split; [done|]. split; [|apply collectPatches_restoring].
  intros Hnil. rewrite (mutate_eligible _ _ _ _ _ E R Eo En), Hnil in P.
  discriminate.
Qed.

(** C8, as the code has it: for an eligible request whose documents
    decode, the response is built from the operations accumulated over
    the protected paths, none or one for each entry of the declared list;
    their paths are a subsequence of the declared paths, so the
    operations come in declaration order; two declared paths that both
    differ between the old and the new document yield exactly two
    operations, in that order; and when no path is declared twice, no two
    operations have the same path. *)
Theorem mutate_patch_order (req : v1beta1.AdmissionRequest)
    (newManifest : objectWithMeta) (paths : list string) (currentMap newMap : Record) :
  Unmarshal_objectWithMeta (bytes_of (v1beta1.Object req)) = Ok newManifest ->
  mutationRequired ignoredNamespaces (ObjectMeta newManifest) = (paths, None) ->
  oldDocument req = Ok currentMap ->
  Unmarshal_map (bytes_of (v1beta1.Object req)) = Ok newMap ->
  mutate req = respond (collectPatches paths currentMap newMap)
  /\ sublist (Path <$> collectPatches paths currentMap newMap) paths
  /\ length (collectPatches paths currentMap newMap) <= length paths
  /\ (forall p1 p2, paths = [p1; p2] ->
        differs currentMap newMap p1 -> differs currentMap newMap p2 ->
        exists op1 op2,
          collectPatches paths currentMap newMap = [op1; op2]
          /\ Path op1 = p1 /\ Path op2 = p2)
  /\ collectPatches paths currentMap newMap
     = concat (map (fun path => patchForPath path currentMap newMap) paths)
  /\ (forall path,
        length (patchForPath path currentMap newMap) <= 1
        /\ Forall (fun op => Path op = path) (patchForPath path currentMap newMap))
  /\ (NoDup paths -> NoDup (Path <$> collectPatches paths currentMap newMap)).
Proof.
  intros E R Eo En.
  split; [by apply (mutate_eligible _ newManifest)|].
  pose proof (collectPatches_sublist paths currentMap newMap) as Hsub.
  split; [exact Hsub|]. split_and!.
  - apply sublist_length in Hsub. by rewrite length_fmap in Hsub.
  - intros p1 p2 -> (op1 & E1 & ?)%patchForPath_differs
                    (op2 & E2 & ?)%patchForPath_differs.
    exists op1, op2. rewrite !collectPatches_cons, E1, E2. done.
  - clear. induction paths as [|path paths IH]; [done|].
    rewrite collectPatches_cons, IH. done.
  - intros path.
    destruct (patchForPath_cases path currentMap newMap) as [->|(op & -> & <- & _)];
      simpl; split; try lia; by repeat constructor.
  - intros Hnd. by eapply sublist_NoDup.
Qed.

(** C10: when the old document holds null at a protected path and the new
    document has no value or a value other than null there, the null is
    found, one operation is emitted for it, and the members written for
    that operation are "op" and "path" only: "value" is left out. *)
Theorem null_value_omitted (path : string) (currentMap newMap : Record) :
  walks (VMap currentMap) (segments path) VNil ->
  (forall newV, Get newMap (segments path) = (newV, true) -> newV <> VNil) ->
  Get currentMap (segments path) = (VNil, true)
  /\ exists op,
       patchForPath path currentMap newMap = [op]
       /\ Path op = path /\ Value op = VNil
       /\ Op op = (if snd (Get newMap (segments path)) then "replace" else "add")
       /\ patchOperation_members op = [("op", VString (Op op)); ("path", VString path)]
       /\ (forall v, ("value", v) ∉ patchOperation_members op)
       /\ Marshal [op]
          = Encode_structs [[("op", VString (Op op)); ("path", VString path)]].
Proof.
  intros W Hnew.
  assert (Get currentMap (segments path) = (VNil, true)) as Ec.
  { apply Get_found. split; [apply Split_nonempty|exact W]. }
  split; [exact Ec|].
  unfold patchForPath. fold (segments path). rewrite Ec.
  destruct (Get newMap (segments path)) as [newV [|]] eqn:En.
  - assert (reflect.DeepEqual VNil newV = false) as ->.
    { apply not_true_is_false. rewrite DeepEqual_nil. by apply Hnew. }
    eexists. split; [reflexivity|]. simpl. split_and!; try done.
    intros v Hin. repeat (apply elem_of_cons in Hin as [[=]|Hin]).
    by apply not_elem_of_nil in Hin.
  - eexists. split; [reflexivity|]. simpl. split_and!; try done.
    intros v Hin. repeat (apply elem_of_cons in Hin as [[=]|Hin]).
    by apply not_elem_of_nil in Hin.
Qed.

End webhook_properties.

(** ** The properties at the documents of [TestMutate] *)

Section test_runs.
Import TestMutate.
Existing Instance TestMutate.library.

(** A decidable hypothesis, settled by evaluation. *)
Ltac evaluated :=
  lazymatch goal with
  | |- _ = _ => vm_compute; reflexivity
  | |- ¬ ?P => apply (bool_decide_eq_false_1 P); vm_compute; reflexivity
  | |- ?P => apply (bool_decide_eq_true_1 P); vm_compute; reflexivity
  end.

Example test_0_malformed :
  mutate (request "" None) = message "unexpected end of JSON input".
Proof. vm_compute. reflexivity. Qed.

Example test_1_no_labels : mutate (request empty_object.1 None) = allowed.
Proof. vm_compute. reflexivity. Qed.

Example test_2_disabled : mutate (request label_false.1 None) = allowed.
Proof. vm_compute. reflexivity. Qed.

Example test_3_malformed_label :
  mutate (request label_notabool.1 None)
  = message (json "strconv.ParseBool: parsing 'NOTABOOL': invalid syntax").
Proof. vm_compute. reflexivity. Qed.

Example test_4_no_paths : mutate (request label_true.1 None) = allowed.
Proof. vm_compute. reflexivity. Qed.

Example test_5_replace :
  mutate (request new_one_path.1 (Some old_replicas.1))
  = patched "[{'op':'replace','path':'/spec/replicas','value':10}]".
Proof. vm_compute. reflexivity. Qed.

Example test_6_not_in_old :
  mutate (request new_one_path.1 (Some old_unset.1)) = allowed.
Proof. vm_compute. reflexivity. Qed.

Example test_7_add :
  mutate (request new_one_path_unset.1 (Some old_replicas.1))
  = patched "[{'op':'add','path':'/spec/replicas','value':10}]".
Proof. vm_compute. reflexivity. Qed.

Example test_8_two_paths :
  mutate (request new_two_paths.1 (Some old_labelled.1))
  = patched "[{'op':'replace','path':'/spec/replicas','value':10},{'op':'replace','path':'/metadata/labels/testlabel','value':'existing'}]".
Proof. vm_compute. reflexivity. Qed.

Example test_9_two_paths_not_in_old :
  mutate (request new_two_paths_unset.1 (Some old_unset.1)) = allowed.
Proof. vm_compute. reflexivity. Qed.

Example test_10_two_paths_add :
  mutate (request new_two_paths_unset.1 (Some old_labelled.1))
  = patched "[{'op':'add','path':'/spec/replicas','value':10},{'op':'add','path':'/metadata/labels/testlabel','value':'existing'}]".
Proof. vm_compute. reflexivity. Qed.

Example deep_equality :
  reflect.DeepEqual (VMap old_labelled.2) (VMap old_labelled.2) = true
  /\ reflect.DeepEqual (obj [("a", VSlice [VFloat64 1; obj [("b", VNil)]])])
                       (obj [("a", VSlice [VFloat64 1; obj [("b", VNil)]])]) = true
  /\ reflect.DeepEqual (obj [("a", VSlice [VFloat64 1; obj [("b", VNil)]])])
                       (obj [("a", VSlice [VFloat64 1; obj [("b", VBool false)]])]) = false
  /\ reflect.DeepEqual (obj [("a", VFloat64 1)])
                       (obj [("a", VFloat64 1); ("b", VFloat64 1)]) = false.
Proof. repeat split; vm_compute; reflexivity. Qed.

Example lookups :
  Get old_labelled.2 ["metadata"; "labels"; "testlabel"] = (VString "existing", true)
  /\ Get old_labelled.2 ["spec"] = (obj [("replicas", VFloat64 10)], true)
  /\ Get old_labelled.2 ["spec"; "replicas"; "deeper"] = (VNil, false)
  /\ Get old_labelled.2 ["spec"; "missing"] = (VNil, false)
  /\ Get old_null.2 ["spec"; "replicas"] = (VNil, true)
  /\ Get old_labelled.2 [] = (VNil, false).
Proof. repeat split; vm_compute; reflexivity. Qed.

Example stray_commas :
  strings.Split "a,,b," "," = ["a"; ""; "b"; ""]
  /\ map strings.TrimSpace (strings.Split " /a , /b	,, " ",") = ["/a"; "/b"; ""; ""].
Proof. split; reflexivity. Qed.

Example segments_of_paths :
  segments "/spec/replicas" = ["spec"; "replicas"]
  /\ segments "//metadata/labels/testlabel/" = ["metadata"; "labels"; "testlabel"]
  /\ segments "" = [""] /\ segments "/a//b" = ["a"; ""; "b"].
Proof. repeat split; reflexivity. Qed.

(** C2 fails as stated: the first case of [TestMutate], an empty new
    object, is an internal failure, and the response is not allowed. *)
Lemma mutate_failure_not_allowed :
  internal_failure (request "" None) (jsonError "unexpected end of JSON input")
  /\ v1beta1.Allowed (mutate (request "" None)) = false.
Proof.
  split; [|vm_compute; reflexivity].
  apply malformed_new. vm_compute. reflexivity.
Qed.

Lemma mutate_internal_failure_witness :
  mutate (request new_one_path.1 (Some ""))
  = message "unexpected end of JSON input".
Proof.
  refine (proj1 (mutate_internal_failure (request new_one_path.1 (Some ""))
                   (jsonError "unexpected end of JSON input") _)).
  eapply (malformed_old _ _ ["/spec/replicas"]); [evaluated|evaluated|done|evaluated].
Defined.

Lemma mutate_malformed_new_witness :
  v1beta1.Result (mutate (request "" None))
  = Some {| metav1.Message := "unexpected end of JSON input" |}
  /\ v1beta1.Patch (mutate (request "" None)) = None.
Proof.
  destruct (mutate_malformed_new (request "" None)
              (jsonError "unexpected end of JSON input")) as (_ & R & P & _);
    [evaluated|].
  exact (conj R P).
Defined.

Lemma mutate_ignored_namespace_witness :
  mutate (request new_kube_system.1 (Some old_replicas.1)) = allowed.
Proof.
  edestruct (mutate_ignored_namespace (request new_kube_system.1 (Some old_replicas.1)))
    as (_ & A & _); [evaluated|evaluated|].
  exact A.
Defined.

Lemma mutate_malformed_label_witness :
  mutate (request label_notabool.1 None)
  = message (json "strconv.ParseBool: parsing 'NOTABOOL': invalid syntax").
Proof.
  edestruct (mutate_malformed_label (request label_notabool.1 None))
    as (A & _); [evaluated|evaluated|evaluated|evaluated|].
  exact A.
Defined.

Lemma mutationRequired_paths_witness :
  exists newManifest,
    Unmarshal_objectWithMeta (raw new_two_paths.1) = Ok newManifest
    /\ mutationRequired ignoredNamespaces (ObjectMeta newManifest)
       = (["/spec/replicas"; "/metadata/labels/testlabel"], None).
Proof.
  eexists. split; [evaluated|].
  epose proof (mutationRequired_paths (request new_two_paths.1 None) _ "true") as W.
  lapply W; [clear W; intros W|evaluated].
  lapply W; [clear W; intros W|evaluated].
  lapply W; [clear W; intros W|evaluated].
  lapply W; [clear W; intros W|evaluated].
  destruct W as (resolved & R & -> & _).
  exact R.
Defined.

Lemma mutate_never_removes_witness :
  exists patches,
    Marshal patches
    = Ok (raw "[{'op':'replace','path':'/spec/replicas','value':10}]")
    /\ patches <> []
    /\ Forall (fun op => (Op op = "add" \/ Op op = "replace") /\ Op op <> "remove")
              patches.
Proof.
  apply (mutate_never_removes (request new_one_path.1 (Some old_replicas.1))).
  evaluated.
Defined.

Lemma mutate_patch_order_witness :
  exists op1 op2,
    collectPatches ["/spec/replicas"; "/metadata/labels/testlabel"]
      old_labelled.2 new_two_paths.2 = [op1; op2]
    /\ Path op1 = "/spec/replicas" /\ Path op2 = "/metadata/labels/testlabel".
Proof.
  assert (differs old_labelled.2 new_two_paths.2 "/spec/replicas") as D1.
  { exists (VFloat64 10). split; [vm_compute; reflexivity|].
    intros newV. vm_compute. by intros [= <-]. }
  assert (differs old_labelled.2 new_two_paths.2 "/metadata/labels/testlabel") as D2.
  { exists (VString "existing"). split; [vm_compute; reflexivity|].
    intros newV. vm_compute. by intros [= <-]. }
  refine (proj1 (proj2 (proj2 (proj2
            (mutate_patch_order (request new_two_paths.1 (Some old_labelled.1))
               (manifest new_two_paths.2)
               ["/spec/replicas"; "/metadata/labels/testlabel"]
               old_labelled.2 new_two_paths.2 _ _ _ _))))
            "/spec/replicas" "/metadata/labels/testlabel" eq_refl D1 D2);
    vm_compute; reflexivity.
Defined.

(** C8 fails as stated: a path declared twice in the annotation gets two
    operations. *)
Lemma duplicate_path_patched_twice :
  mutationRequired ignoredNamespaces
    {| metav1.Name := "testdeployment"; metav1.Namespace := "testns";
       metav1.Labels := {[ EnabledLabel := "true" ]};
       metav1.Annotations := {[ PathsAnnotationKey := "/spec/replicas,/spec/replicas" ]} |}
  = (["/spec/replicas"; "/spec/replicas"], None)
  /\ collectPatches ["/spec/replicas"; "/spec/replicas"]
       old_replicas.2 new_duplicate_path.2
     = [ {| Op := "replace"; Path := "/spec/replicas"; Value := VFloat64 10 |};
         {| Op := "replace"; Path := "/spec/replicas"; Value := VFloat64 10 |} ]
  /\ mutate (request new_duplicate_path.1 (Some old_replicas.1))
     = patched "[{'op':'replace','path':'/spec/replicas','value':10},{'op':'replace','path':'/spec/replicas','value':10}]".
Proof. split_and!; vm_compute; reflexivity. Qed.

Lemma null_value_omitted_witness :
  exists op,
    patchForPath "/spec/replicas" old_null.2 new_one_path.2 = [op]
    /\ Op op = "replace"
    /\ patchOperation_members op
       = [("op", VString "replace"); ("path", VString "/spec/replicas")].
Proof.
  destruct (null_value_omitted "/spec/replicas" old_null.2 new_one_path.2)
    as (_ & op & E & _ & _ & O & M & _).
  - apply Get_found. evaluated.
  - intros newV. vm_compute. by intros [= <-].
  - exists op. rewrite M, O. by split.
Defined.

End test_runs.

(** * Further properties of the webhook *)

(** ** Skips, and what [mutate] answers in general *)

Section mutate_outcomes.
Context `{GoLibrary}.

(** The response literal with a patch. *)
Definition patched (patchBytes : list Byte.byte) : v1beta1.AdmissionResponse :=
  {| v1beta1.Allowed := true; v1beta1.Result := None;
     v1beta1.Patch := Some patchBytes;
     v1beta1.PatchType_ := Some v1beta1.PatchTypeJSONPatch |}.

Lemma mutationRequired_cases (ignoredList : list string) (metadata : metav1.ObjectMeta) :
  ((metav1.Namespace metadata ∈ ignoredList)
   /\ mutationRequired ignoredList metadata = ([], Some errIgnoredNamespace))
  \/ ((metav1.Namespace metadata ∉ ignoredList)
      /\ metav1.Labels metadata !! EnabledLabel = None
      /\ mutationRequired ignoredList metadata = ([], Some errNoLabel))
  \/ (exists v,
        (metav1.Namespace metadata ∉ ignoredList)
        /\ metav1.Labels metadata !! EnabledLabel = Some v
        /\ ((snd (strconv.ParseBool v)
               = Some (NumError "ParseBool" v strconv.ErrSyntax)
             /\ mutationRequired ignoredList metadata
                = ([], Some (NumError "ParseBool" v strconv.ErrSyntax)))
            \/ (strconv.ParseBool v = (false, None)
                /\ mutationRequired ignoredList metadata = ([], Some errLabelDisabled))
            \/ (strconv.ParseBool v = (true, None)
                /\ mutationRequired ignoredList metadata
                   = (match metav1.Annotations metadata !! PathsAnnotationKey with
                      | Some paths => map strings.TrimSpace (strings.Split paths ",")
                      | None => []
                      end, None)))).
Proof.
  destruct (decide (metav1.Namespace metadata ∈ ignoredList)) as [Hns|Hns].
  { left. split; [done|]. by apply mutationRequired_ignored. }
  right.
  destruct (metav1.Labels metadata !! EnabledLabel) as [v|] eqn:Hl.
  2: { left. split_and!; try done. unfold mutationRequired.
       by rewrite (existsb_eqb_not_elem _ _ Hns), Hl. }
  right. exists v. split_and!; try done.
  destruct (strconv.ParseBool v) as [b [err|]] eqn:Hp.
  - left. pose proof (ParseBool_error _ _ _ Hp) as [-> ->].
    split; [done|]. by apply (mutationRequired_malformed _ _ v false).
  - right. destruct b.
    + right. split; [done|].
      rewrite (mutationRequired_eligible _ _ v) by done.
      by destruct (metav1.Annotations metadata !! PathsAnnotationKey).
    + left. split; [done|]. unfold mutationRequired.
      by rewrite (existsb_eqb_not_elem _ _ Hns), Hl, Hp.
Qed.

(** X1: an object outside the ignored namespaces that has no enabling
    label is allowed without a patch and without a message, whatever its
    annotations and whatever the old object is. *)
Theorem mutate_no_label (req : v1beta1.AdmissionRequest) (newManifest : objectWithMeta) :
  Unmarshal_objectWithMeta (bytes_of (v1beta1.Object req)) = Ok newManifest ->
  metav1.Namespace (ObjectMeta newManifest) ∉ ignoredNamespaces ->
  metav1.Labels (ObjectMeta newManifest) !! EnabledLabel = None ->
  mutationRequired ignoredNamespaces (ObjectMeta newManifest) = ([], Some errNoLabel)
  /\ mutate req = allowed.
Proof.
  intros E Hns Hl.
  assert (mutationRequired ignoredNamespaces (ObjectMeta newManifest)
          = ([], Some errNoLabel)) as R.
  { unfold mutationRequired. by rewrite (existsb_eqb_not_elem _ _ Hns), Hl. }
  split; [exact R|]. by rewrite (mutate_required _ _ _ _ E R).
Qed.

(** X2: an enabling label that parses as false switches the webhook off:
    the request is allowed without a patch even when the paths annotation
    is present. *)
Theorem mutate_label_disabled (req : v1beta1.AdmissionRequest)
    (newManifest : objectWithMeta) (v : string) :
  Unmarshal_objectWithMeta (bytes_of (v1beta1.Object req)) = Ok newManifest ->
  metav1.Namespace (ObjectMeta newManifest) ∉ ignoredNamespaces ->
  metav1.Labels (ObjectMeta newManifest) !! EnabledLabel = Some v ->
  strconv.ParseBool v = (false, None) ->
  mutationRequired ignoredNamespaces (ObjectMeta newManifest)
  = ([], Some errLabelDisabled)
  /\ mutate req = allowed.
Proof.
  intros E Hns Hl Hp.
  assert (mutationRequired ignoredNamespaces (ObjectMeta newManifest)
          = ([], Some errLabelDisabled)) as R.
  { unfold mutationRequired. by rewrite (existsb_eqb_not_elem _ _ Hns), Hl, Hp. }
  split; [exact R|]. by rewrite (mutate_required _ _ _ _ E R).
Qed.

(** X3: [mutationRequired] never returns paths together with an error,
    and it returns paths only for an object that opted in: outside the
    ignored namespaces, with an enabling label that parses as true and
    with the paths annotation. *)
Theorem mutationRequired_opt_in (ignoredList : list string) (metadata : metav1.ObjectMeta) :
  (snd (mutationRequired ignoredList metadata) <> None ->
   fst (mutationRequired ignoredList metadata) = [])
  /\ (fst (mutationRequired ignoredList metadata) <> [] ->
      (metav1.Namespace metadata ∉ ignoredList)
      /\ (exists v, metav1.Labels metadata !! EnabledLabel = Some v
                    /\ strconv.ParseBool v = (true, None))
      /\ exists paths,
           metav1.Annotations metadata !! PathsAnnotationKey = Some paths
           /\ fst (mutationRequired ignoredList metadata)
              = map strings.TrimSpace (strings.Split paths ",")).
Proof.
  destruct (mutationRequired_cases ignoredList metadata)
    as [[_ ->]|[(_ & _ & ->)|(v & Hns & Hl & [[_ ->]|[[_ ->]|[Hp ->]]])]];
    simpl; try (split; [done|by intros []]).
  split; [by intros []|]. intros Hne. split_and!; eauto.
  destruct (metav1.Annotations metadata !! PathsAnnotationKey) as [paths|];
    [eauto|by destruct Hne].
Qed.

(** X4: every response of [mutate] is one of three: allowed with
    nothing else, a message with nothing else ([Allowed] false), or a
    patch of type JSONPatch with [Allowed] true and no message.  So a
    response never carries a message and a patch together, and it is
    allowed exactly when it has no message. *)
Theorem mutate_response_shape (req : v1beta1.AdmissionRequest) :
  (mutate req = allowed
   \/ (exists err, mutate req = failed err)
   \/ (exists patchBytes, mutate req = patched patchBytes))
  /\ (v1beta1.Allowed (mutate req) = true <-> v1beta1.Result (mutate req) = None)
  /\ (v1beta1.Patch (mutate req) = None <-> v1beta1.PatchType_ (mutate req) = None)
  /\ (v1beta1.Patch (mutate req) <> None -> v1beta1.Allowed (mutate req) = true).
Proof.
  assert (mutate req = allowed
          \/ (exists err, mutate req = failed err)
          \/ (exists patchBytes, mutate req = patched patchBytes)) as Shape.
  { unfold mutate.
    destruct (Unmarshal_objectWithMeta _) as [newManifest|err]; [|eauto].
    destruct (mutationRequired _ _) as [paths [err|]].
    { destruct err; eauto. }
    destruct (length paths =? 0)%nat; [eauto|].
    destruct (match runtime.Raw _ with Some raw => _ | None => _ end)
      as [currentMap|err]; [|eauto].
    destruct (Unmarshal_map _) as [newMap|err]; [|eauto].
    simpl. destruct (length _ =? 0)%nat; [eauto|].
    destruct (Marshal _) as [patchBytes|err]; [|eauto].
    right. right. by exists patchBytes. }
  split; [exact Shape|].
  destruct Shape as [->|[[err ->]|[patchBytes ->]]]; simpl; split_and!; done.
Qed.

(** X5: when no paths are to be protected (the object is skipped, its
    label is malformed, or it declares no paths), the old object is not
    decoded: two requests with the same new object get the same response,
    whatever their old objects hold. *)
Theorem mutate_old_object_unread (req req' : v1beta1.AdmissionRequest)
    (newManifest : objectWithMeta) :
  v1beta1.Object req = v1beta1.Object req' ->
  Unmarshal_objectWithMeta (bytes_of (v1beta1.Object req)) = Ok newManifest ->
  fst (mutationRequired ignoredNamespaces (ObjectMeta newManifest)) = [] ->
  mutate req = mutate req'.
Proof.
  intros Eobj E Hnil. unfold mutate. rewrite <- Eobj, E.
  destruct (mutationRequired _ _) as [paths err]. simpl in Hnil. subst paths.
  by destruct err as [[]|].
Qed.

(** X6: a request without an old object (a create) is never patched:
    [currentMap] stays nil, no path is found in it, and the response is
    allowed without a patch unless the new object fails to decode or its
    label is malformed. *)
Theorem mutate_create_unpatched (req : v1beta1.AdmissionRequest) :
  runtime.Raw (v1beta1.OldObject req) = None ->
  (forall paths newMap, collectPatches paths ∅ newMap = [])
  /\ v1beta1.Patch (mutate req) = None
  /\ (mutate req = allowed \/ exists err, mutate req = failed err).
Proof.
  intros Hold.
  assert (forall paths newMap, collectPatches paths ∅ newMap = []) as Hnone.
  { intros paths newMap. induction paths as [|path paths IH]; [done|].
    rewrite collectPatches_cons, IH.
    unfold patchForPath.
    pose proof (Split_nonempty (strings.Trim path "/") "/") as Hne.
    destruct (strings.Split _ _) as [|k ks]; [done|]. simpl.
    by rewrite lookup_empty. }
  split; [exact Hnone|].
  assert (mutate req = allowed \/ exists err, mutate req = failed err) as Shape.
  { unfold mutate. rewrite Hold.
    destruct (Unmarshal_objectWithMeta _) as [newManifest|err]; [|eauto].
    destruct (mutationRequired _ _) as [paths [err|]].
    { destruct err; eauto. }
    destruct (length paths =? 0)%nat; [eauto|].
    destruct (Unmarshal_map _) as [newMap|err]; [|eauto].
    simpl. rewrite Hnone. eauto. }
  split; [|exact Shape].
  by destruct Shape as [->|[err ->]].
Qed.

(** X7: when the accumulated patches cannot be encoded, [mutate] answers
    with the encoder's error text and no patch; when they can, the patch
    is that encoding. *)
Theorem mutate_marshal (req : v1beta1.AdmissionRequest)
    (newManifest : objectWithMeta) (paths : list string) (currentMap newMap : Record) :
  Unmarshal_objectWithMeta (bytes_of (v1beta1.Object req)) = Ok newManifest ->
  mutationRequired ignoredNamespaces (ObjectMeta newManifest) = (paths, None) ->
  oldDocument req = Ok currentMap ->
  Unmarshal_map (bytes_of (v1beta1.Object req)) = Ok newMap ->
  collectPatches paths currentMap newMap <> [] ->
  match Marshal (collectPatches paths currentMap newMap) with
  | Err err => mutate req = failed err
  | Ok patchBytes => mutate req = patched patchBytes
  end.
Proof.
  intros E R Eo En Hne.
  rewrite (mutate_eligible _ _ _ _ _ E R Eo En). unfold respond.
  destruct (collectPatches paths currentMap newMap); [done|]. simpl.
  by destruct (Marshal _).
Qed.

End mutate_outcomes.

(** ** Lookups and paths *)

Lemma walks_app (v w : value) (pre post : list string) :
  walks v (pre ++ post) w <-> exists u, walks v pre u /\ walks u post w.
Proof.
  split.
  - revert v. induction pre as [|k pre IH]; intros v W; simpl in W.
    + exists v. split; [constructor|done].
    + inversion W as [|m k' ks v' w' L W']; subst.
      destruct (IH _ W') as (u & W1 & W2).
      exists u. split; [by econstructor|done].
  - intros (u & W1 & W2). induction W1 as [v|m k ks v u L _ IH]; simpl; [done|].
    econstructor; eauto.
Qed.

(** X8: lookups compose along a path: a value is found under the
    segments [pre] followed by [post] exactly when [pre] leads to a
    mapping in which [post] leads to that value. *)
Theorem Get_app (r : Record) (pre post : list string) (v : value) :
  pre <> [] -> post <> [] ->
  (Get r (pre ++ post) = (v, true)
   <-> exists m : gmap string value,
         Get r pre = (VMap m, true) /\ Get m post = (v, true)).
Proof.
  intros Hpre Hpost. rewrite Get_found, walks_app. split.
  - intros (_ & u & W1 & W2).
    destruct post as [|k post]; [done|].
    inversion W2 as [|m k' ks v' w' L W']; subst.
    exists m. rewrite !Get_found. by split_and!.
  - intros (m & (_ & W1)%Get_found & (_ & W2)%Get_found).
    split; [by destruct pre|]. eauto.
Qed.

(** X9: what is bound in a record is what [Get] finds there: a value
    bound under [k] is found by the one segment [k], the segments below a
    mapping bound under [k] are looked up in that mapping, and binding
    [k] changes no lookup that starts with another key. *)
Theorem Get_insert (r : Record) (k : string) (v : value) :
  Get (<[k := v]> r) [k] = (v, true)
  /\ (forall (m : gmap string value) k' ks,
        v = VMap m -> Get (<[k := v]> r) (k :: k' :: ks) = Get m (k' :: ks))
  /\ (forall k' ks, k' <> k -> Get (<[k := v]> r) (k' :: ks) = Get r (k' :: ks))
  /\ (forall ks, Get (delete k r) (k :: ks) = (VNil, false)).
Proof.
  split_and!.
  - simpl. by rewrite lookup_insert_eq.
  - intros m k' ks ->. simpl. by rewrite lookup_insert_eq.
  - intros k' ks Hne. simpl. by rewrite lookup_insert_ne.
  - intros ks. simpl. by rewrite lookup_delete_eq.
Qed.

Lemma Split_no_sep (s : string) (sep : ascii) :
  Forall (fun e => strings.Count e sep = 0) (strings.Split s sep).
Proof.
  induction s as [|c r IH]; simpl; [by repeat constructor|].
  destruct (Ascii.eqb c sep) eqn:E.
  - by constructor.
  - destruct (strings.Split r sep) as [|h t]; [by repeat constructor; simpl; rewrite E|].
    inversion IH; subst. constructor; [|done]. simpl. by rewrite E.
Qed.

(** X10: the segments of a path are never empty as a list, none of them
    contains a slash, and joined by slashes they give the path without
    its leading and trailing slashes.  A member whose name contains a
    slash is therefore never looked up. *)
Theorem segments_spec (path : string) :
  segments path <> []
  /\ Forall (fun seg => strings.Count seg "/" = 0) (segments path)
  /\ strings.Join (segments path) "/" = strings.Trim path "/"
  /\ length (segments path) = S (strings.Count (strings.Trim path "/") "/").
Proof.
  unfold segments. split_and!.
  - apply Split_nonempty.
  - apply Split_no_sep.
  - apply Join_Split.
  - apply Split_length.
Qed.

(** X11: a path that is empty once its slashes are trimmed has the one
    segment [""]: it addresses the member of the record whose name is
    the empty string, and is found when the old object has such a
    member. *)
Theorem empty_path_lookup (path : string) (current : Record) :
  strings.Trim path "/" = "" ->
  segments path = [""]
  /\ Get current (segments path)
     = match current !! "" with
       | Some v => (v, true)
       | None => (VNil, false)
       end
  /\ (forall v replacement,
        current !! "" = Some v -> replacement !! "" = None ->
        patchForPath path current replacement
        = [{| Op := "add"; Path := path; Value := v |}]).
Proof.
  intros E. unfold patchForPath, segments. rewrite E. simpl.
  split_and!; [done|by destruct (current !! "")|].
  by intros v replacement -> ->.
Qed.

(** X12: [patchForPath] reads the path without its leading and trailing
    slashes but writes it as given: two paths that agree once trimmed
    give operations with the same [op] and value, each carrying its own
    spelling of the path. *)
Theorem patchForPath_trimmed (path path' : string) (current replacement : Record) :
  strings.Trim path "/" = strings.Trim path' "/" ->
  (fun op => (Op op, Value op)) <$> patchForPath path current replacement
  = (fun op => (Op op, Value op)) <$> patchForPath path' current replacement
  /\ Forall (fun op => Path op = path) (patchForPath path current replacement)
  /\ Forall (fun op => Path op = path') (patchForPath path' current replacement).
Proof.
  intros E. unfold patchForPath. rewrite E.
  destruct (Get current _) as [currentV [|]]; [|done].
  destruct (Get replacement _) as [newV [|]].
  - destruct (reflect.DeepEqual currentV newV); [done|].
    split_and!; [done|by constructor|by constructor].
  - split_and!; [done|by constructor|by constructor].
Qed.

(** X13: the patches of a list of paths are the patches of each path, one
    after the other: the loop treats every path on its own, so the
    patches of two lists put together are those of the first followed by
    those of the second. *)
Theorem collectPatches_app (paths paths' : list string) (currentMap newMap : Record) :
  collectPatches (paths ++ paths') currentMap newMap
  = collectPatches paths currentMap newMap ++ collectPatches paths' currentMap newMap
  /\ collectPatches paths currentMap newMap
     = concat (map (fun path => patchForPath path currentMap newMap) paths).
Proof.
  split.
  - unfold collectPatches at 1. rewrite foldl_app.
    fold (collectPatches paths currentMap newMap).
    apply collectPatches_foldl.
  - induction paths as [|path paths IH]; [done|].
    rewrite collectPatches_cons, IH. done.
Qed.

(** ** Unchanged documents *)

(** No [float64] of the document is a NaN, the one value that is not
    equal to itself.  A decoded JSON text has none. *)
Fixpoint noNaN (v : value) : bool :=
  match v with
  | VFloat64 f => PrimFloat.eqb f f
  | VSlice l => forallb noNaN l
  | VMap m => map_fold (fun _ v acc => acc && noNaN v) true m
  | _ => true
  end.

(** The number of values in a document. *)
Fixpoint value_size (v : value) : nat :=
  match v with
  | VSlice l => S (list_sum (map value_size l))
  | VMap m => S (map_fold (fun _ v acc => value_size v + acc) 0 m)
  | _ => 1
  end.

Lemma value_size_member (m : gmap string value) (k : string) (v : value) :
  m !! k = Some v -> value_size v < value_size (VMap m).
Proof.
  intros L.
  change (value_size (VMap m))
    with (S (map_fold (fun _ v acc => value_size v + acc) 0 m)).
  rewrite (map_fold_delete_L _ _ k v m); [lia| |done].
  intros. lia.
Qed.

Lemma value_size_elem (l : list value) (v : value) :
  v ∈ l -> value_size v < value_size (VSlice l).
Proof.
  change (value_size (VSlice l)) with (S (list_sum (map value_size l))).
  induction 1 as [v l|v w l _ IH]; simpl; lia.
Qed.

Lemma noNaN_VMap (m : gmap string value) :
  noNaN (VMap m) = true <-> forall k v, m !! k = Some v -> noNaN v = true.
Proof.
  change (noNaN (VMap m))
    with (map_fold (fun (_ : string) v acc => acc && noNaN v) true m).
  apply (map_fold_weak_ind (fun res (m : gmap string value) =>
    res = true <-> forall k v, m !! k = Some v -> noNaN v = true)).
  - split; [|done]. intros _ k v. by rewrite lookup_empty.
  - intros k v m' res fresh IH. rewrite andb_true_iff, IH. split.
    + intros [Hm Hv] k' v'. rewrite lookup_insert. case_decide.
      * by intros [= <-].
      * apply Hm.
    + intros Hall. split.
      * intros k' v' L. apply (Hall k'). rewrite lookup_insert_ne; [done|].
        intros ->. congruence.
      * apply (Hall k). by rewrite lookup_insert_eq.
Qed.

Lemma DeepEqual_refl_sized (n : nat) (v : value) :
  value_size v < n -> noNaN v = true -> reflect.DeepEqual v v = true.
Proof.
  revert v. induction n as [|n IH]; intros v Hn Hv; [lia|].
  destruct v as [|b|f|s|l|m]; simpl in Hv |- *.
  - done.
  - by destruct b.
  - done.
  - apply String.eqb_refl.
  - apply DeepEqual_VSlice. apply Forall2_same_length_lookup_2; [done|].
    intros i x y Hx Hy. assert (x = y) as <- by congruence.
    apply IH.
    + pose proof (value_size_elem l x (list_elem_of_lookup_2 _ _ _ Hx)). lia.
    + rewrite forallb_forall in Hv. apply Hv.
      apply list_elem_of_In. by eapply list_elem_of_lookup_2.
  - apply DeepEqual_VMap. split; [done|]. intros k v1 L.
    exists v1. split; [done|]. apply IH.
    + pose proof (value_size_member m k v1 L). lia.
    + by apply (proj1 (noNaN_VMap m) Hv k).
Qed.

Lemma DeepEqual_refl (v : value) :
  noNaN v = true -> reflect.DeepEqual v v = true.
Proof. apply (DeepEqual_refl_sized (S (value_size v))). lia. Qed.

Lemma walks_noNaN (v w : value) (ks : list string) :
  walks v ks w -> noNaN v = true -> noNaN w = true.
Proof.
  induction 1 as [v|m k ks v w L _ IH]; [done|].
  intros Hm. apply IH. by apply (proj1 (noNaN_VMap m) Hm k).
Qed.

Section unchanged.
Context `{GoLibrary}.

(** X14: protecting an unchanged object is a no-op.  When the old and
    the new object decode to the same document, which holds no NaN, no
    path yields a patch, whatever paths are declared, and [mutate]
    returns no patch. *)
Theorem mutate_unchanged (req : v1beta1.AdmissionRequest) (document : Record) :
  oldDocument req = Ok document ->
  Unmarshal_map (bytes_of (v1beta1.Object req)) = Ok document ->
  noNaN (VMap document) = true ->
  (forall paths, collectPatches paths document document = [])
  /\ v1beta1.Patch (mutate req) = None.
Proof.
  intros Eo En Hv.
  assert (forall paths, collectPatches paths document document = []) as Hnone.
  { intros paths. induction paths as [|path paths IH]; [done|].
    rewrite collectPatches_cons, IH, app_nil_r.
    unfold patchForPath.
    destruct (Get document _) as [v [|]] eqn:Eg; [|done].
    apply Get_found in Eg as [_ W].
    by rewrite (DeepEqual_refl v (walks_noNaN _ _ _ W Hv)). }
  split; [exact Hnone|].
  destruct (v1beta1.Patch (mutate req)) as [patchBytes|] eqn:P; [|done].
  pose proof (mutate_patch_inv _ _ P)
    as (newManifest & paths & currentMap & newMap & E & R & Eo' & En' & Em).
  assert (currentMap = document) as -> by congruence.
  assert (newMap = document) as -> by congruence.
  rewrite (mutate_eligible _ _ _ _ _ E R Eo' En'), Hnone in P. done.
Qed.

End unchanged.

(** ** The resolved paths carry no white space around them *)

Lemma append_nil_r (s : string) : s +:+ "" = s.
Proof.
  induction s as [|c s IH]; [done|].
  change (String c s +:+ "") with (String c (s +:+ "")). by rewrite IH.
Qed.

Lemma append_assoc (a b c : string) : (a +:+ b) +:+ c = a +:+ (b +:+ c).
Proof.
  induction a as [|x a IH]; [done|].
  change (String x ((a +:+ b) +:+ c) = String x (a +:+ (b +:+ c))). by rewrite IH.
Qed.

Lemma rev_app_append (s a b : string) :
  String.rev_app s (a +:+ b) = String.rev_app s a +:+ b.
Proof.
  revert a. induction s as [|c s IH]; intros a; simpl; [done|].
  apply (IH (String c a)).
Qed.

Lemma rev_cons (c : ascii) (s : string) :
  String.rev (String c s) = String.rev s +:+ String c "".
Proof. unfold String.rev. simpl. apply (rev_app_append s "" (String c "")). Qed.

Lemma rev_append (a b : string) :
  String.rev (a +:+ b) = String.rev b +:+ String.rev a.
Proof.
  induction a as [|c a IH].
  - change (String.rev b = String.rev b +:+ ""). by rewrite append_nil_r.
  - change (String.rev (String c (a +:+ b)) = String.rev b +:+ String.rev (String c a)).
    by rewrite !rev_cons, IH, append_assoc.
Qed.

Lemma rev_involutive (s : string) : String.rev (String.rev s) = s.
Proof.
  induction s as [|c s IH]; [done|].
  by rewrite rev_cons, rev_append, IH.
Qed.

Lemma Count_append (a b : string) (c : ascii) :
  strings.Count (a +:+ b) c = strings.Count a c + strings.Count b c.
Proof.
  induction a as [|x a IH]; [done|].
  change (strings.Count (String x (a +:+ b)) c
          = strings.Count (String x a) c + strings.Count b c).
  simpl. rewrite IH. lia.
Qed.

Lemma Count_rev (s : string) (c : ascii) :
  strings.Count (String.rev s) c = strings.Count s c.
Proof.
  induction s as [|x s IH]; [done|].
  rewrite rev_cons, Count_append, IH. simpl. lia.
Qed.

(** [s] starts with a white-space rune. *)
Definition startsSpace (s : string) : bool :=
  match s with
  | String b1 r1 =>
      strings.asciiSpace b1
      || match r1 with
         | String b2 r2 =>
             strings.isSpace2 b1 b2
             || match r2 with
                | String b3 _ => strings.isSpace3 b1 b2 b3
                | EmptyString => false
                end
         | EmptyString => false
         end
  | EmptyString => false
  end.

(** [s] read backwards starts with a white-space rune: the argument is
    the reversed string. *)
Definition startsSpaceRev (s : string) : bool :=
  match s with
  | String b1 r1 =>
      strings.asciiSpace b1
      || match r1 with
         | String b2 r2 =>
             strings.isSpace2 b2 b1
             || match r2 with
                | String b3 _ => strings.isSpace3 b3 b2 b1
                | EmptyString => false
                end
         | EmptyString => false
         end
  | EmptyString => false
  end.

Lemma trimLeftSpace_step (s : string) :
  (startsSpace s = false /\ strings.trimLeftSpace s = s)
  \/ (startsSpace s = true
      /\ exists pre r, s = pre +:+ r /\ String.length r < String.length s
           /\ strings.trimLeftSpace s = strings.trimLeftSpace r).
Proof.
  destruct s as [|b1 [|b2 [|b3 r3]]]; simpl; [by left|..].
  - destruct (strings.asciiSpace b1); [right|by left].
    split; [done|]. exists (String b1 ""), "". simpl. split_and!; [done|lia|done].
  - destruct (strings.asciiSpace b1); simpl.
    { right. split; [done|]. exists (String b1 ""), (String b2 ""). simpl.
      split_and!; [done|lia|done]. }
    destruct (strings.isSpace2 b1 b2); simpl; [right|by left].
    split; [done|]. exists (String b1 (String b2 "")), "". simpl.
    split_and!; [done|lia|done].
  - destruct (strings.asciiSpace b1); simpl.
    { right. split; [done|]. exists (String b1 ""), (String b2 (String b3 r3)).
      simpl. split_and!; [done|lia|done]. }
    destruct (strings.isSpace2 b1 b2); simpl.
    { right. split; [done|]. exists (String b1 (String b2 "")), (String b3 r3).
      simpl. split_and!; [done|lia|done]. }
    destruct (strings.isSpace3 b1 b2 b3); simpl; [right|by left].
    split; [done|]. exists (String b1 (String b2 (String b3 ""))), r3.
    simpl. split_and!; [done|lia|done].
Qed.

Lemma trimLeftSpaceRev_step (s : string) :
  (startsSpaceRev s = false /\ strings.trimLeftSpaceRev s = s)
  \/ (startsSpaceRev s = true
      /\ exists pre r, s = pre +:+ r /\ String.length r < String.length s
           /\ strings.trimLeftSpaceRev s = strings.trimLeftSpaceRev r).
Proof.
  destruct s as [|b1 [|b2 [|b3 r3]]]; simpl; [by left|..].
  - destruct (strings.asciiSpace b1); [right|by left].
    split; [done|]. exists (String b1 ""), "". simpl. split_and!; [done|lia|done].
  - destruct (strings.asciiSpace b1); simpl.
    { right. split; [done|]. exists (String b1 ""), (String b2 ""). simpl.
      split_and!; [done|lia|done]. }
    destruct (strings.isSpace2 b2 b1); simpl; [right|by left].
    split; [done|]. exists (String b1 (String b2 "")), "". simpl.
    split_and!; [done|lia|done].
  - destruct (strings.asciiSpace b1); simpl.
    { right. split; [done|]. exists (String b1 ""), (String b2 (String b3 r3)).
      simpl. split_and!; [done|lia|done]. }
    destruct (strings.isSpace2 b2 b1); simpl.
    { right. split; [done|]. exists (String b1 (String b2 "")), (String b3 r3).
      simpl. split_and!; [done|lia|done]. }
    destruct (strings.isSpace3 b3 b2 b1); simpl; [right|by left].
    split; [done|]. exists (String b1 (String b2 (String b3 ""))), r3.
    simpl. split_and!; [done|lia|done].
Qed.

(** What a trimming loop returns is a suffix of its input that does not
    start with a white-space rune. *)
Lemma trimmed_suffix (trim : string -> string) (starts : string -> bool) :
  (forall s,
     (starts s = false /\ trim s = s)
     \/ (starts s = true
         /\ exists pre r, s = pre +:+ r /\ String.length r < String.length s
              /\ trim s = trim r)) ->
  forall s, starts (trim s) = false /\ exists pre, s = pre +:+ trim s.
Proof.
  intros Hstep s. remember (String.length s) as n eqn:Hn. revert s Hn.
  induction n as [n IH] using lt_wf_ind. intros s ->.
  destruct (Hstep s) as [[Hs E]|[_ (pre & r & E & Hlen & Et)]].
  - rewrite E. split; [done|]. by exists "".
  - rewrite Et. destruct (IH _ Hlen r eq_refl) as [Hr [pre' Hpre']].
    split; [done|]. exists (pre +:+ pre'). by rewrite append_assoc, <- Hpre'.
Qed.

Lemma startsSpace_prefix (a b : string) :
  startsSpace (a +:+ b) = false -> startsSpace a = false.
Proof.
  destruct a as [|b1 [|b2 [|b3 r3]]]; simpl; try done.
  - by intros (-> & _)%orb_false_iff.
  - intros (-> & (-> & _)%orb_false_iff)%orb_false_iff. done.
Qed.

Lemma startsSpace_fixed (s : string) :
  startsSpace s = false -> strings.trimLeftSpace s = s.
Proof.
  intros Hs. destruct (trimLeftSpace_step s) as [[_ E]|[Hs' _]]; [done|congruence].
Qed.

Lemma startsSpaceRev_fixed (s : string) :
  startsSpaceRev s = false -> strings.trimLeftSpaceRev s = s.
Proof.
  intros Hs. destruct (trimLeftSpaceRev_step s) as [[_ E]|[Hs' _]]; [done|congruence].
Qed.

Lemma TrimSpace_fixed (s : string) :
  strings.TrimSpace (strings.TrimSpace s) = strings.TrimSpace s.
Proof.
  unfold strings.TrimSpace, strings.trimRightSpace.
  destruct (trimmed_suffix _ _ trimLeftSpace_step s) as [Hleft _].
  set (t := strings.trimLeftSpace s) in *.
  destruct (trimmed_suffix _ _ trimLeftSpaceRev_step (String.rev t)) as [Hright [p Hp]].
  set (u := strings.trimLeftSpaceRev (String.rev t)) in *.
  assert (t = String.rev u +:+ String.rev p) as Ht.
  { by rewrite <- rev_append, <- Hp, rev_involutive. }
  rewrite Ht in Hleft. apply startsSpace_prefix in Hleft.
  rewrite (startsSpace_fixed _ Hleft), rev_involutive.
  by rewrite (startsSpaceRev_fixed _ Hright).
Qed.

Lemma Count_TrimSpace (s : string) (c : ascii) :
  strings.Count (strings.TrimSpace s) c <= strings.Count s c.
Proof.
  unfold strings.TrimSpace, strings.trimRightSpace.
  destruct (trimmed_suffix _ _ trimLeftSpace_step s) as [_ [p Hp]].
  destruct (trimmed_suffix _ _ trimLeftSpaceRev_step
              (String.rev (strings.trimLeftSpace s))) as [_ [q Hq]].
  apply (f_equal (fun x => strings.Count x c)) in Hp, Hq.
  rewrite Count_append in Hp, Hq. rewrite Count_rev in Hq.
  rewrite Count_rev. lia.
Qed.

(** X15: the paths [mutationRequired] returns are trimmed and whole: no
    path starts or ends with white space (trimming it again changes
    nothing), and none contains a comma. *)
Theorem mutationRequired_trimmed (ignoredList : list string) (metadata : metav1.ObjectMeta) :
  Forall (fun path => strings.TrimSpace path = path
                      /\ strings.Count path "," = 0)
         (fst (mutationRequired ignoredList metadata)).
Proof.
  destruct (mutationRequired_cases ignoredList metadata)
    as [[_ ->]|[(_ & _ & ->)|(v & _ & _ & [[_ ->]|[[_ ->]|[_ ->]]])]];
    simpl; try by constructor.
  destruct (metav1.Annotations metadata !! PathsAnnotationKey) as [paths|];
    [|by constructor].
  apply Forall_forall. intros path (e & <- & He)%list_elem_of_In%in_map_iff.
  split; [apply TrimSpace_fixed|].
  pose proof (Split_no_sep paths ",") as Hsep.
  rewrite Forall_forall in Hsep. specialize (Hsep e).
  pose proof (Count_TrimSpace e ",").
  apply list_elem_of_In in He. specialize (Hsep He). lia.
Qed.


(** ** The HTTP handler *)

Module http.

(** [r.Body] and the [Content-Type] header of a request.  [Body] is [None]
    for a nil body, and the result of [ioutil.ReadAll] otherwise. *)
Record Request := {
  Body : option (result (list Byte.byte));
  ContentType : string;
}.

(** What a handler does to its [http.ResponseWriter], call by call:
    [http.Error(w, text, code)] and [w.Write(data)]. *)
Inductive call :=
  | Error (text : string) (code : nat)
  | Write (data : list Byte.byte).

Definition StatusBadRequest : nat := 400.
Definition StatusUnsupportedMediaType : nat := 415.
Definition StatusInternalServerError : nat := 500.

End http.

(** [v1beta1.AdmissionReview]: the request and the response, each with
    its [UID] beside the fields [mutate] reads and writes. *)
Record AdmissionReview := {
  Request : option (string * v1beta1.AdmissionRequest);
  Response : option (string * v1beta1.AdmissionResponse);
}.

(** A handler returns after its calls on the writer, or panics. *)
Inductive served :=
  | Panics
  | Returns (calls : list http.call).

(** What [serve] uses besides [mutate]: the deserializer of the review
    (the review [ar] it leaves, and its error), the encoder of the
    answer, and the error of the connection on a write. *)
Class Transport := {
  (** [deserializer.Decode(body, nil, &ar)] *)
  Decode : list Byte.byte -> AdmissionReview * option error;
  (** [json.Marshal(admissionReview)] *)
  Marshal_review : AdmissionReview -> result (list Byte.byte);
  (** the error [w.Write(data)] returns *)
  Write_error : list Byte.byte -> option error;
}.

Section serve.
Context `{GoLibrary} `{Transport}.

(** [body] as [serve] reads it: nil unless the request has a body and
    reading it succeeds. *)
Definition read_body (r : http.Request) : list Byte.byte :=
  match http.Body r with
  | Some (Ok data) => data
  | Some (Err _) | None => []
  end.

(** The part of [serve] after the checks of the body and of the content
    type.  [mutate] dereferences its argument at once, so a review
    without a request panics. *)
Definition review (body : list Byte.byte) : served :=
  let '(ar, err) := Decode body in
  match
    match err with
    | Some err => Some (failed err)
    | None =>
        match Request ar with
        | Some (_, req) => Some (mutate req)
        | None => None
        end
    end
  with
  | None => Panics
  | Some admissionResponse =>
      let admissionReview :=
        {| Request := None;
           Response := Some (match Request ar with
                             | Some (uid, _) => uid
                             | None => ""
                             end, admissionResponse) |} in
      let '(resp, encoding) :=
        match Marshal_review admissionReview with
        | Ok resp => (resp, [])
        | Err err =>
            ([], [http.Error ("could not encode response: " +:+ Error err)
                             http.StatusInternalServerError])
        end in
      Returns (encoding ++ [http.Write resp]
               ++ match Write_error resp with
                  | Some err =>
                      [http.Error ("could not write response: " +:+ Error err)
                                  http.StatusInternalServerError]
                  | None => []
                  end)
  end.

(** [func (whsvr *WebhookServer) serve(w http.ResponseWriter, r *http.Request)] *)
Definition serve (r : http.Request) : served :=
  let body := read_body r in
  if (length body =? 0)%nat
  then Returns [http.Error "empty body" http.StatusBadRequest]
  else if negb (String.eqb (http.ContentType r) "application/json")
  then Returns [http.Error "invalid Content-Type, expect `application/json`"
                           http.StatusUnsupportedMediaType]
  else review body.

Definition is_write (c : http.call) : bool :=
  match c with
  | http.Write _ => true
  | http.Error _ _ => false
  end.

(** X16: a request whose body is missing, unreadable or empty is answered
    with the error 400 alone, whatever its content type; a request with a
    body and any content type other than [application/json] with the
    error 415 alone.  In both cases nothing is decoded and nothing else
    is written. *)
Theorem serve_refuses (r : http.Request) :
  (read_body r = [] ->
   serve r = Returns [http.Error "empty body" 400])
  /\ (read_body r <> [] -> http.ContentType r <> "application/json" ->
      serve r = Returns [http.Error "invalid Content-Type, expect `application/json`" 415])
  /\ (forall e, http.Body r = Some (Err e) -> read_body r = [])
  /\ (http.Body r = None -> read_body r = []).
Proof.
  unfold serve. split_and!.
  - by intros ->.
  - intros Hb Hct. destruct (read_body r) as [|b body]; [done|]. simpl.
    destruct (String.eqb_spec (http.ContentType r) "application/json"); done.
  - unfold read_body. by intros e ->.
  - unfold read_body. by intros ->.
Qed.

(** X17: [serve] panics exactly when a request with a body and the JSON
    content type decodes without error to a review that has no request. *)
Theorem serve_panics (r : http.Request) :
  serve r = Panics
  <-> read_body r <> []
      /\ http.ContentType r = "application/json"
      /\ snd (Decode (read_body r)) = None
      /\ Request (fst (Decode (read_body r))) = None.
Proof.
  unfold serve, review.
  destruct (read_body r) as [|b body]; simpl.
  { split; [discriminate|]. by intros [? _]. }
  destruct (String.eqb_spec (http.ContentType r) "application/json") as [->|Hne];
    simpl.
  2: { split; [discriminate|]. by intros (_ & ? & _). }
  destruct (Decode (b :: body)) as [ar [err|]]; simpl.
  - destruct (Marshal_review _); (split; [discriminate|]); by intros (_ & _ & ? & _).
  - destruct (Request ar) as [[uid req]|]; simpl; [|done].
    destruct (Marshal_review _); (split; [discriminate|]); by intros (_ & _ & _ & ?).
Qed.

(** X18: once the body and the content type are accepted and [serve]
    returns, it has written exactly once, also when the answer could not
    be encoded or the write failed, and every error it reports has the
    code 500. *)
Theorem serve_writes_once (r : http.Request) (calls : list http.call) :
  read_body r <> [] ->
  http.ContentType r = "application/json" ->
  serve r = Returns calls ->
  length (filter is_write calls) = 1
  /\ Forall (fun c => forall text code, c = http.Error text code -> code = 500) calls.
Proof.
  intros Hb Hct. unfold serve, review.
  destruct (read_body r) as [|b body]; [done|]. simpl. rewrite Hct. simpl.
  destruct (Decode (b :: body)) as [ar err].
  destruct (match err with Some _ => _ | None => _ end) as [admissionResponse|];
    [|done].
  destruct (Marshal_review _) as [resp|err'];
    destruct (Write_error _) as [werr|]; intros [= <-]; simpl;
    (split; [done|repeat constructor; by intros ? ? [= ? <-]]).
Qed.

(** X19: [serve] forwards the decision of [mutate] unchanged and echoes
    the UID.  For a review that decodes, with the request [req] under the
    UID [uid], it writes the encoding of the review whose response is
    [mutate req] under that UID, so a response [mutate] left not allowed
    reaches the caller not allowed; when that review cannot be encoded it
    reports the error and still writes, nothing.  When the body does not
    decode, the response encoded is the error's message, not allowed,
    under the UID of whatever request the decoder left. *)
Theorem serve_answer (r : http.Request) (ar : AdmissionReview) (err : option error) :
  read_body r <> [] ->
  http.ContentType r = "application/json" ->
  Decode (read_body r) = (ar, err) ->
  (forall uid req,
     err = None -> Request ar = Some (uid, req) ->
     match Marshal_review {| Request := None; Response := Some (uid, mutate req) |} with
     | Ok resp =>
         exists rest, serve r = Returns (http.Write resp :: rest)
                      /\ (Write_error resp = None -> rest = [])
     | Err e =>
         exists rest,
           serve r = Returns (http.Error ("could not encode response: " +:+ Error e) 500
                              :: http.Write [] :: rest)
           /\ (Write_error [] = None -> rest = [])
     end)
  /\ (forall e resp,
        err = Some e ->
        Marshal_review
          {| Request := None;
             Response := Some (match Request ar with
                               | Some (uid, _) => uid
                               | None => ""
                               end, failed e) |} = Ok resp ->
        exists rest, serve r = Returns (http.Write resp :: rest)
                     /\ (Write_error resp = None -> rest = [])).
Proof.
  intros Hb Hct Ed. unfold serve, review.
  destruct (read_body r) as [|b body]; [done|]. simpl. rewrite Hct, Ed. simpl.
  split.
  - intros uid req -> ->. simpl.
    destruct (Marshal_review _) as [resp|e]; simpl;
      (eexists; split; [reflexivity|]; by intros ->).
  - intros e resp -> ->. simpl.
    eexists. split; [reflexivity|]. by intros ->.
Qed.

End serve.

(** ** The further properties at the documents of [TestMutate] *)

Module TestServe.
Import TestMutate.

(** The text of a review with a request. *)
Definition review_text (uid new : string) : string :=
  "{'request':{'uid':'" +:+ uid +:+ "','object':" +:+ new +:+ "}}".

Definition with_request (uid new : string) : string * AdmissionReview :=
  (review_text uid new,
   {| Request := Some (uid, request new None); Response := None |}).

(** A review whose request has no object: its [Raw] stays nil. *)
Definition without_object (uid : string) : string * AdmissionReview :=
  ("{'request':{'uid':'" +:+ uid +:+ "'}}",
   {| Request := Some (uid, {| v1beta1.Object := {| runtime.Raw := None |};
                               v1beta1.OldObject := {| runtime.Raw := None |} |});
      Response := None |}).

(** Review texts, each with the review it decodes to. *)
Definition reviews : list (string * AdmissionReview) :=
  [ ("{}", {| Request := None; Response := None |});
    without_object "u1";
    with_request "u2" label_true.1 ].

Definition decode_review (data : list Byte.byte) : AdmissionReview * option error :=
  match find (fun d => String.eqb (string_of_list_byte data) (json (fst d))) reviews with
  | Some d => (snd d, None)
  | None => ({| Request := None; Response := None |},
             Some (jsonError "input outside the table of reviews"))
  end.

(** The text of an answer without a patch. *)
Definition encode_review (review : AdmissionReview) : result (list Byte.byte) :=
  match Response review with
  | Some (uid, {| v1beta1.Allowed := a; v1beta1.Result := status;
                  v1beta1.Patch := None |}) =>
      Ok (raw ("{'response':{'uid':'" +:+ uid +:+ "','allowed':"
               +:+ (if a then "true" else "false")
               +:+ match status with
                   | Some {| metav1.Message := text |} =>
                       ",'status':{'metadata':{},'message':'" +:+ text +:+ "'}"
                   | None => ""
                   end
               +:+ "}}"))
  | _ => Err (jsonError "answer outside the table of reviews")
  end.

#[local] Instance transport : Transport := {|
  Decode := decode_review;
  Marshal_review := encode_review;
  Write_error := fun _ => None;
|}.

(** A request with the JSON content type and the body [text]. *)
Definition post (text : string) : http.Request :=
  {| http.Body := Some (Ok (raw text)); http.ContentType := "application/json" |}.

End TestServe.

Section more_test_runs.
Import TestMutate TestServe.
Existing Instance TestMutate.library.
Existing Instance TestServe.transport.

Ltac computed :=
  lazymatch goal with
  | |- _ = _ => vm_compute; reflexivity
  | |- ¬ ?P => apply (bool_decide_eq_false_1 P); vm_compute; reflexivity
  | |- ?P => apply (bool_decide_eq_true_1 P); vm_compute; reflexivity
  end.

Lemma mutate_no_label_witness :
  mutate (request empty_object.1 (Some "")) = allowed.
Proof.
  refine (proj2 (mutate_no_label (request empty_object.1 (Some ""))
                   (manifest empty_object.2) _ _ _)); computed.
Defined.

Lemma mutate_label_disabled_witness :
  mutate (request label_false.1 None) = allowed.
Proof.
  refine (proj2 (mutate_label_disabled (request label_false.1 None)
                   (manifest label_false.2) "false" _ _ _ _)); computed.
Defined.

Lemma mutate_old_object_unread_witness :
  mutate (request label_true.1 None) = mutate (request label_true.1 (Some "")).
Proof.
  refine (mutate_old_object_unread (request label_true.1 None)
            (request label_true.1 (Some "")) (manifest label_true.2) _ _ _);
    computed.
Defined.

Lemma mutate_create_unpatched_witness :
  v1beta1.Patch (mutate (request new_one_path.1 None)) = None.
Proof.
  refine (proj1 (proj2 (mutate_create_unpatched (request new_one_path.1 None) _))).
  reflexivity.
Defined.

Lemma mutate_marshal_witness :
  mutate (request new_one_path.1 (Some old_replicas.1))
  = TestMutate.patched "[{'op':'replace','path':'/spec/replicas','value':10}]".
Proof.
  assert (Marshal (collectPatches ["/spec/replicas"] old_replicas.2 new_one_path.2)
          = Ok (raw "[{'op':'replace','path':'/spec/replicas','value':10}]")) as Em.
  { vm_compute. reflexivity. }
  pose proof (mutate_marshal (request new_one_path.1 (Some old_replicas.1))
                (manifest new_one_path.2) ["/spec/replicas"]
                old_replicas.2 new_one_path.2) as W.
  rewrite Em in W. apply W; computed.
Defined.

Lemma Get_app_witness :
  Get old_labelled.2 (["metadata"; "labels"] ++ ["testlabel"])
  = (VString "existing", true)
  <-> exists m : gmap string value,
        Get old_labelled.2 ["metadata"; "labels"] = (VMap m, true)
        /\ Get m ["testlabel"] = (VString "existing", true).
Proof.
  apply (Get_app old_labelled.2 ["metadata"; "labels"] ["testlabel"]); discriminate.
Defined.

Lemma empty_path_lookup_witness :
  patchForPath "//" {[ "" := VFloat64 1 ]} ∅
  = [{| Op := "add"; Path := "//"; Value := VFloat64 1 |}].
Proof.
  refine (proj2 (proj2 (empty_path_lookup "//" {[ "" := VFloat64 1 ]} _))
                (VFloat64 1) ∅ _ _); reflexivity.
Defined.

Lemma patchForPath_trimmed_witness :
  (fun op => (Op op, Value op))
    <$> patchForPath "/spec/replicas" old_replicas.2 new_one_path.2
  = (fun op => (Op op, Value op))
    <$> patchForPath "spec/replicas//" old_replicas.2 new_one_path.2.
Proof.
  refine (proj1 (patchForPath_trimmed "/spec/replicas" "spec/replicas//"
                   old_replicas.2 new_one_path.2 _)).
  reflexivity.
Defined.

Lemma mutate_unchanged_witness :
  v1beta1.Patch (mutate (request new_two_paths.1 (Some new_two_paths.1))) = None.
Proof.
  refine (proj2 (mutate_unchanged (request new_two_paths.1 (Some new_two_paths.1))
                   new_two_paths.2 _ _ _)); computed.
Defined.

Lemma serve_writes_once_witness :
  length (filter is_write
            [http.Write (raw "{'response':{'uid':'u2','allowed':true}}")]) = 1.
Proof.
  refine (proj1 (serve_writes_once (post (review_text "u2" label_true.1)) _ _ _ _)).
  - vm_compute. discriminate.
  - reflexivity.
  - vm_compute. reflexivity.
Defined.

Lemma serve_answer_witness :
  exists rest,
    serve (post (without_object "u1").1)
    = Returns (http.Write (raw "{'response':{'uid':'u1','allowed':false,'status':{'metadata':{},'message':'unexpected end of JSON input'}}}")
               :: rest)
    /\ (Write_error (raw "{'response':{'uid':'u1','allowed':false,'status':{'metadata':{},'message':'unexpected end of JSON input'}}}") = None
        -> rest = []).
Proof.
  assert (Marshal_review
            {| Request := None;
               Response := Some ("u1", mutate {| v1beta1.Object := {| runtime.Raw := None |};
                                                 v1beta1.OldObject := {| runtime.Raw := None |} |}) |}
          = Ok (raw "{'response':{'uid':'u1','allowed':false,'status':{'metadata':{},'message':'unexpected end of JSON input'}}}"))
    as Em.
  { vm_compute. reflexivity. }
  pose proof (proj1 (serve_answer (post (without_object "u1").1)
                       (without_object "u1").2 None
                       ltac:(vm_compute; discriminate) eq_refl
                       ltac:(vm_compute; reflexivity))
                "u1" _ eq_refl eq_refl) as W.
  rewrite Em in W. exact W.
Defined.

End more_test_runs.
